(** * django-tom-select: the widget cache protocol and the search filter

    A shallow embedding of [django_tom_select/forms.py] (the Heavy and Model
    widget mixins), of the cache and settings modules it uses, and of the
    parts of Python and Django its behaviour rests on: string truthiness,
    [str.split], [functools.reduce], [django.db.models.Q] and lazy
    [QuerySet]s. *)

From Stdlib Require Import String Ascii List Bool ZArith NArith Lia.
From stdpp Require Import base option list strings gmap.

Local Open Scope string_scope.
Local Open Scope bool_scope.

Set Warnings "-register-all".

(** * Python *)

Module Py.

(** Exceptions are values.  The message of an exception is kept as a tag
    with the class name that the source interpolates into it. *)
Inductive message :=
| MsgDataViewOrUrl                       (* forms.py:217 *)
| MsgNotSerialisable (cls : string)      (* forms.py:265 *)
| MsgMissingQuerySet (cls : string)      (* forms.py:426-430 *)
| MsgMissingSearchFields (cls : string)  (* forms.py:437-439 *)
| MsgReduceEmptySequence.                (* functools.reduce, no initial value *)

Inductive exn :=
| ValueError (m : message)
| NotImplementedError (m : message)
| TypeError (m : message)
| NoReverseMatch (viewname : string).

Inductive result (A : Type) :=
| Ok (a : A)
| Raise (e : exn).
Arguments Ok {A} a.
Arguments Raise {A} e.

Definition bind {A B} (r : result A) (k : A -> result B) : result B :=
  match r with
  | Ok a => k a
  | Raise e => Raise e
  end.

Definition is_ok {A} (r : result A) : bool :=
  match r with Ok _ => true | Raise _ => false end.

(** Truthiness of a [str]: only the empty string is false. *)
Definition str_truthy (s : string) : bool :=
  match s with
  | EmptyString => false
  | String _ _ => true
  end.

(** Truthiness of an attribute that is [None] or a [str]. *)
Definition opt_truthy (o : option string) : bool :=
  match o with
  | None => false
  | Some s => str_truthy s
  end.

(** Truthiness of a list, tuple or dict: non-empty. *)
Definition seq_truthy {A} (l : list A) : bool :=
  match l with
  | [] => false
  | _ :: _ => true
  end.

(** [x or y] on values that are [None] or a [str]. *)
Definition opt_or (x y : option string) : option string :=
  if opt_truthy x then x else y.

(** [str.isspace] on one character.  A character of [string] stands for
    the code point of the same number (0..255); these are the code points
    in that range that Python counts as whitespace. *)
Definition isspace (c : ascii) : bool :=
  let n := N_of_ascii c in
  (((9 <=? n) && (n <=? 13)) || ((28 <=? n) && (n <=? 32))
   || (n =? 133) || (n =? 160))%N.

(** [str.split()] without a separator: runs of whitespace separate the
    words, and no empty word is produced.  [word] is the word being read. *)
Fixpoint split_from (word : string) (s : string) : list string :=
  match s with
  | EmptyString => if str_truthy word then [word] else []
  | String c rest =>
      if isspace c
      then (if str_truthy word then word :: split_from "" rest
            else split_from "" rest)
      else split_from (word +:+ String c "") rest
  end.

Definition split (s : string) : list string := split_from "" s.

(** [functools.reduce(f, seq)] without an initial value. *)
Definition reduce {A} (f : A -> A -> A) (seq : list A) : result A :=
  match seq with
  | [] => Raise (TypeError MsgReduceEmptySequence)
  | x :: xs => Ok (fold_left f xs x)
  end.

(** [any(...)] over a generator of booleans. *)
Definition any {A} (p : A -> bool) (l : list A) : bool := existsb p l.

End Py.

Export Py.

Notation "x <- c1 ;; c2" := (Py.bind c1 (fun x => c2))
  (at level 100, c1 at next level, right associativity).

(** * Django: settings, Q objects and lazy query sets *)

Module Django.

(** ** [django_tom_select/conf.py]: the settings and their defaults *)
Record Settings := {
  TOM_SELECT_CACHE_BACKEND : string;
  TOM_SELECT_CACHE_PREFIX : string;
  TOM_SELECT_JS : list string;
  TOM_SELECT_CSS : list string;
  TOM_SELECT_THEME : string;
  TOM_SELECT_JSON_ENCODER : string
}.

Definition TomSelectConf : Settings := {|
  TOM_SELECT_CACHE_BACKEND := "default";
  TOM_SELECT_CACHE_PREFIX := "tomselect_";
  TOM_SELECT_JS := ["django_tom_select/tom-select.complete.min.js"];
  TOM_SELECT_CSS := ["django_tom_select/tom-select.min.css"];
  TOM_SELECT_THEME := "default";
  TOM_SELECT_JSON_ENCODER := "django.core.serializers.json.DjangoJSONEncoder"
|}.

(** ** [django.db.models.Q] *)

Inductive connector := AND | OR.

(** A Q object is a tree: a node has a connector and children, and a child
    is a sub-tree or a [(lookup, value)] pair. *)
Inductive Q :=
| Leaf (lookup value : string)
| Node (conn : connector) (children : list Q).

(** [Q(lookup=value, ...)]: the keyword arguments, joined by AND.  [Q()] has no
    child. *)
Definition Q_kwargs (kwargs : list (string * string)) : Q :=
  Node AND (map (fun kv => Leaf (fst kv) (snd kv)) kwargs).

Definition Q_empty : Q := Q_kwargs [].

(** [bool(q)]: a tree node is true when it has children. *)
Definition Q_truthy (q : Q) : bool :=
  match q with
  | Leaf _ _ => true
  | Node _ children => seq_truthy children
  end.

(** [Q._combine]: an empty operand is dropped, whatever the connector;
    otherwise a new node holds both operands.  (Django then flattens
    nested nodes of the same connector, which changes no meaning.) *)
Definition Q_combine (self other : Q) (conn : connector) : Q :=
  if negb (Q_truthy self) then other
  else if negb (Q_truthy other) then self
  else Node conn [self; other].

Definition Q_and (self other : Q) : Q := Q_combine self other AND.
Definition Q_or (self other : Q) : Q := Q_combine self other OR.

(** ** Models and the database *)

Inductive Model := ModelClass (name : string).

(** What the ORM and the database decide: the rows of a table as they
    stand after the joins a filter needs (a row reached through several
    related objects occurs once per such object), whether one
    [(lookup, value)] condition holds of a row, and
    [django.contrib.admin.utils.lookup_spawns_duplicates]. *)
Class ORM := {
  Row : Type;
  Row_eq_dec :: EqDecision Row;
  lookup_matches : Row -> string -> string -> bool;
  lookup_spawns_duplicates : Model -> string -> bool
}.

Section QuerySets.
Context `{orm : ORM}.

(** A filter condition on one row.  A node without children holds of
    every row: [filter(Q())] filters nothing. *)
Fixpoint Q_holds (r : Row) (q : Q) : bool :=
  match q with
  | Leaf lookup value => lookup_matches r lookup value
  | Node AND children => forallb (Q_holds r) children
  | Node OR children => existsb (Q_holds r) children
  end.

(** [django.db.models.sql.Query], as far as it is used here: the
    conditions added by [filter], the DISTINCT flag and the flag set by
    [none()]. *)
Record Query := {
  q_where : list Q;
  q_distinct : bool;
  q_empty : bool
}.

(** A lazy [QuerySet]: a model, a query and, once it was evaluated,
    the rows it fetched ([_result_cache]). *)
Record QuerySet := {
  qs_model : Model;
  qs_query : Query;
  qs_result_cache : option (list Row)
}.

(** [Model._default_manager.all()] *)
Definition manager_all (m : Model) : QuerySet :=
  {| qs_model := m;
     qs_query := {| q_where := []; q_distinct := false; q_empty := false |};
     qs_result_cache := None |}.

(** [QuerySet.filter(q)]: a fresh, unevaluated clone with one more
    condition. *)
Definition qs_filter (qs : QuerySet) (q : Q) : QuerySet :=
  {| qs_model := qs_model qs;
     qs_query := {| q_where := q_where (qs_query qs) ++ [q];
                    q_distinct := q_distinct (qs_query qs);
                    q_empty := q_empty (qs_query qs) |};
     qs_result_cache := None |}.

(** [QuerySet.distinct()] *)
Definition qs_distinct (qs : QuerySet) : QuerySet :=
  {| qs_model := qs_model qs;
     qs_query := {| q_where := q_where (qs_query qs);
                    q_distinct := true;
                    q_empty := q_empty (qs_query qs) |};
     qs_result_cache := None |}.

(** [QuerySet.none()] *)
Definition qs_none (qs : QuerySet) : QuerySet :=
  {| qs_model := qs_model qs;
     qs_query := {| q_where := q_where (qs_query qs);
                    q_distinct := q_distinct (qs_query qs);
                    q_empty := true |};
     qs_result_cache := None |}.

(** [qs.query = query]: how a query set is put together again from the
    two halves that [set_to_cache] stores. *)
Definition qs_with_query (qs : QuerySet) (query : Query) : QuerySet :=
  {| qs_model := qs_model qs;
     qs_query := query;
     qs_result_cache := qs_result_cache qs |}.

(** The rows a query denotes over the tables [db]. *)
Definition query_rows (db : Model -> list Row) (m : Model) (query : Query)
  : list Row :=
  if q_empty query then []
  else
    let selected :=
      List.filter (fun r => forallb (Q_holds r) (q_where query)) (db m) in
    if q_distinct query then remove_dups selected else selected.

(** Enumerating a query set: the fetched rows if there are any, the
    rows of the query otherwise. *)
Definition qs_rows (db : Model -> list Row) (qs : QuerySet) : list Row :=
  match qs_result_cache qs with
  | Some fetched => fetched
  | None => query_rows db (qs_model qs) (qs_query qs)
  end.

(** [QuerySet._fetch_all]: evaluation fills the result cache.  Pickling
    a query set evaluates it first, so the fetched rows are part of
    what is pickled. *)
Definition qs_fetch_all (db : Model -> list Row) (qs : QuerySet) : QuerySet :=
  {| qs_model := qs_model qs;
     qs_query := qs_query qs;
     qs_result_cache := Some (qs_rows db qs) |}.

Definition qs_pickled_rows (db : Model -> list Row) (qs : QuerySet)
  : list Row :=
  qs_rows db qs.

End QuerySets.

End Django.

Export Django.

(** * [django_tom_select/forms.py] *)

Module Forms.

Section Widgets.
Context `{orm : ORM}.

(** ** Widget objects *)

(** [self.choices]: the plain choices given to the constructor, or the
    [ModelChoiceIterator] that a model choice field assigns later; only the
    latter has a [queryset] attribute. *)
Inductive Choices :=
| PlainChoices (items : list (string * string))
| ModelChoiceIterator (queryset : QuerySet).

(** [getattr(choices, "queryset")] where [hasattr] says there is one. *)
Definition choices_queryset (c : Choices) : option QuerySet :=
  match c with
  | PlainChoices _ => None
  | ModelChoiceIterator qs => Some qs
  end.

(** What a (sub)class of a Heavy widget declares in its body
    (forms.py:187-189). *)
Record HeavyClass := {
  decl_name : string;
  decl_data_view : option string;
  decl_data_url : option string;
  decl_dependent_fields : list (string * string)
}.

Definition HeavyTomSelectWidget : HeavyClass := {|
  decl_name := "HeavyTomSelectWidget";
  decl_data_view := None;
  decl_data_url := None;
  decl_dependent_fields := []
|}.

(** The keyword arguments of [HeavyTomSelectMixin.__init__].  A key can be
    absent ([None]) or present with a value that may itself be Python's
    [None]. *)
Record HeavyKwargs := {
  kw_data_view : option (option string);
  kw_data_url : option (option string);
  kw_dependent_fields : option (list (string * string));
  kw_userGetValTextFuncName : option string
}.

Definition no_kwargs : HeavyKwargs := {|
  kw_data_view := None;
  kw_data_url := None;
  kw_dependent_fields := None;
  kw_userGetValTextFuncName := None
|}.

(** An instance of a Heavy widget. *)
Record HeavyTomSelectMixin := {
  cls : string;
  attrs : list (string * string);
  choices : Choices;
  uuid : string;
  field_id : string;
  data_view : option string;
  data_url : option string;
  dependent_fields : list (string * string);
  userGetValTextFuncName : string
}.

(** What a (sub)class of a Model widget declares (forms.py:304-318). *)
Record ModelWidgetClass := {
  decl_heavy : HeavyClass;
  decl_model : option Model;
  decl_queryset : option QuerySet;
  decl_search_fields : list string;
  decl_max_results : Z
}.

Definition ModelTomSelectWidget : ModelWidgetClass := {|
  decl_heavy := {| decl_name := "ModelTomSelectWidget";
                   decl_data_view := None;
                   decl_data_url := None;
                   decl_dependent_fields := [] |};
  decl_model := None;
  decl_queryset := None;
  decl_search_fields := [];
  decl_max_results := 25
|}.

Record ModelKwargs := {
  kw_model : option (option Model);
  kw_queryset : option (option QuerySet);
  kw_search_fields : option (list string);
  kw_max_results : option Z;
  kw_heavy : HeavyKwargs
}.

(** An instance of a Model widget: the Heavy part and the attributes that
    [ModelTomSelectMixin.__init__] sets. *)
Record ModelTomSelectMixin := {
  heavy : HeavyTomSelectMixin;
  model : option Model;
  queryset : option QuerySet;
  search_fields : list string;
  max_results : Z
}.

(** ** The shared cache *)

(** The dict that [ModelTomSelectMixin.set_to_cache] stores. *)
Record Descriptor := {
  d_queryset : QuerySet * Query;
  d_cls : string;
  d_search_fields : list string;
  d_max_results : Z;
  d_url : string;
  d_dependent_fields : list (string * string)
}.

(** A cache value: the dict of a Heavy widget (forms.py:263) or of a Model
    widget (forms.py:355-362). *)
Inductive CacheValue :=
| HeavyEntry (widget : HeavyTomSelectMixin) (url : string)
| ModelEntry (descriptor : Descriptor).

(** The state outside a widget: how many random identifiers were drawn so
    far, and the content of the cache backend. *)
Record World := {
  drawn : nat;
  cache : gmap string CacheValue
}.

(** [cache.set(key, value)] and [cache.get(key)].  The cache of the model
    keeps a value as it was handed to [cache.set]; the form in which a
    backend that pickles gives a descriptor back is [descriptor_unpickled]
    below. *)
Definition cache_set (key : string) (value : CacheValue) (w : World) : World :=
  {| drawn := drawn w; cache := <[key := value]> (cache w) |}.

Definition cache_get (key : string) (w : World) : option CacheValue :=
  cache w !! key.

(** The backend dropping an entry (time-out or eviction). *)
Definition cache_expire (key : string) (w : World) : World :=
  {| drawn := drawn w; cache := delete key (cache w) |}.

(** A descriptor after the round trip through [pickle] that a cache
    backend makes, the database being [db] when the entry was written.
    Pickling a query set evaluates it ([QuerySet.__getstate__] calls
    [_fetch_all]), so the query set half comes back with the rows fetched
    then as its result cache; the query object and the other entries come
    back as they were. *)
Definition descriptor_unpickled (db : Model -> list Row) (d : Descriptor)
  : Descriptor :=
  {| d_queryset := (qs_fetch_all db (fst (d_queryset d)), snd (d_queryset d));
     d_cls := d_cls d;
     d_search_fields := d_search_fields d;
     d_max_results := d_max_results d;
     d_url := d_url d;
     d_dependent_fields := d_dependent_fields d |}.

Record RenderArgs := {
  render_name : string;
  render_value : list string
}.

(** What the framework around the widgets decides: the settings, the
    sequence of values of [uuid.uuid4()], [signing.dumps], [reverse] (which
    raises [NoReverseMatch] for a name it does not know), the rendering of
    the underlying select widget, and whether [cache.set] of a widget goes
    through; when it does not, pickling the widget raises [PicklingError]
    or [AttributeError], the exceptions that [set_to_cache] catches. *)
Class Framework := {
  settings : Settings;
  uuid4 : nat -> string;
  signing_dumps : string -> string;
  reverse : option string -> result string;
  super_render : HeavyTomSelectMixin -> RenderArgs -> result string;
  picklable : HeavyTomSelectMixin -> bool
}.

Context `{fw : Framework}.

(** ** [HeavyTomSelectMixin] *)

(** [HeavyTomSelectMixin.__init__] (forms.py:191-218).  The identifier is
    drawn before the check of [data_view] and [data_url]. *)
Definition HeavyTomSelectMixin_init (klass : HeavyClass)
    (attrs0 : list (string * string)) (choices0 : list (string * string))
    (kwargs : HeavyKwargs) (w : World) : result HeavyTomSelectMixin * World :=
  let uuid0 := uuid4 (drawn w) in
  let w' := {| drawn := S (drawn w); cache := cache w |} in
  let field_id0 := signing_dumps uuid0 in
  let data_view0 := default (decl_data_view klass) (kw_data_view kwargs) in
  let data_url0 := default (decl_data_url klass) (kw_data_url kwargs) in
  let dependent_fields0 :=
    match kw_dependent_fields kwargs with
    | Some d => d
    | None => decl_dependent_fields klass
    end in
  if negb (opt_truthy (opt_or data_view0 data_url0))
  then (Raise (ValueError MsgDataViewOrUrl), w')
  else
    (Ok {| cls := decl_name klass;
           attrs := attrs0;
           choices := PlainChoices choices0;
           uuid := uuid0;
           field_id := field_id0;
           data_view := data_view0;
           data_url := data_url0;
           dependent_fields := dependent_fields0;
           userGetValTextFuncName :=
             default "null" (kw_userGetValTextFuncName kwargs) |},
     w').

(** [get_url] (forms.py:220-224) *)
Definition get_url (self : HeavyTomSelectMixin) : result string :=
  match data_url self with
  | Some url => if str_truthy url then Ok url else reverse (data_view self)
  | None => reverse (data_view self)
  end.

(** [_get_cache_key] (forms.py:252-253) *)
Definition _get_cache_key (self : HeavyTomSelectMixin) : string :=
  TOM_SELECT_CACHE_PREFIX settings +:+ uuid self.

(** [HeavyTomSelectMixin.set_to_cache] (forms.py:255-266).  The arguments
    of [cache.set] are evaluated first; a [PicklingError] or
    [AttributeError] inside [cache.set] is turned into
    [NotImplementedError]. *)
Definition Heavy_set_to_cache (self : HeavyTomSelectMixin) (w : World)
  : result World :=
  let key := _get_cache_key self in
  url <- get_url self ;;
  if picklable self
  then Ok (cache_set key (HeavyEntry self url) w)
  else Raise (NotImplementedError (MsgNotSerialisable (cls self))).

(** [HeavyTomSelectMixin.render] (forms.py:246-250), for a widget type [W]
    whose [set_to_cache] is the method the class resolves to. *)
Definition render {W : Type} (base : W -> HeavyTomSelectMixin)
    (set_to_cache : W -> World -> result World)
    (self : W) (args : RenderArgs) (w : World) : result (string * World) :=
  output <- super_render (base self) args ;;
  w' <- set_to_cache self w ;;
  Ok (output, w').

Definition Heavy_render := render (fun self => self) Heavy_set_to_cache.

(** ** [ModelTomSelectMixin] *)

(** [ModelTomSelectMixin.__init__] (forms.py:327-344): the keyword
    arguments overwrite what the class declares, and [data_view] defaults to
    the shared endpoint. *)
Definition ModelTomSelectMixin_init (klass : ModelWidgetClass)
    (attrs0 : list (string * string)) (choices0 : list (string * string))
    (kwargs : ModelKwargs) (w : World) : result ModelTomSelectMixin * World :=
  let model0 := default (decl_model klass) (kw_model kwargs) in
  let queryset0 := default (decl_queryset klass) (kw_queryset kwargs) in
  let search_fields0 :=
    default (decl_search_fields klass) (kw_search_fields kwargs) in
  let max_results0 := default (decl_max_results klass) (kw_max_results kwargs) in
  let defaults := {|
    kw_data_view :=
      match kw_data_view (kw_heavy kwargs) with
      | Some given => Some given
      | None => Some (Some "django_tom_select:auto-json")
      end;
    kw_data_url := kw_data_url (kw_heavy kwargs);
    kw_dependent_fields := kw_dependent_fields (kw_heavy kwargs);
    kw_userGetValTextFuncName := kw_userGetValTextFuncName (kw_heavy kwargs)
  |} in
  match HeavyTomSelectMixin_init (decl_heavy klass) attrs0 choices0 defaults w with
  | (Ok base, w') =>
      (Ok {| heavy := base;
             model := model0;
             queryset := queryset0;
             search_fields := search_fields0;
             max_results := max_results0 |}, w')
  | (Raise e, w') => (Raise e, w')
  end.

(** [get_queryset] (forms.py:411-431) *)
Definition get_queryset (self : ModelTomSelectMixin) : result QuerySet :=
  match queryset self with
  | Some qs => Ok qs
  | None =>
      match choices_queryset (choices (heavy self)) with
      | Some qs => Ok qs
      | None =>
          match model self with
          | Some m => Ok (manager_all m)
          | None =>
              Raise (NotImplementedError (MsgMissingQuerySet (cls (heavy self))))
          end
      end
  end.

(** [get_search_fields] (forms.py:433-439) *)
Definition get_search_fields (self : ModelTomSelectMixin) : result (list string) :=
  if seq_truthy (search_fields self)
  then Ok (search_fields self)
  else Raise (NotImplementedError (MsgMissingSearchFields (cls (heavy self)))).

(** [ModelTomSelectMixin.set_to_cache] (forms.py:346-363) *)
Definition Model_set_to_cache (self : ModelTomSelectMixin) (w : World)
  : result World :=
  qs <- get_queryset self ;;
  let key := _get_cache_key (heavy self) in
  url <- get_url (heavy self) ;;
  Ok (cache_set key
        (ModelEntry {| d_queryset := (qs_none qs, qs_query qs);
                       d_cls := cls (heavy self);
                       d_search_fields := search_fields self;
                       d_max_results := max_results self;
                       d_url := url;
                       d_dependent_fields := dependent_fields (heavy self) |})
        w).

Definition Model_render := render heavy Model_set_to_cache.

(** The request that the JSON view passes on; [filter_queryset] does not
    read it. *)
Record SearchRequest := {
  identifier : string;
  term : string;
  dependent_values : list (string * string);
  page : Z
}.

(** The list comprehension of forms.py:390 and 392: one single-lookup Q
    object per search field, all with the same value. *)
Definition or_queries (search_fields0 : list string) (value : string) : list Q :=
  map (fun orm_lookup => Q_kwargs [(orm_lookup, value)]) search_fields0.

(** The loop of forms.py:389-391 over the words of the term. *)
Fixpoint and_bits (search_fields0 : list string) (select : Q)
    (bits : list string) : result Q :=
  match bits with
  | [] => Ok select
  | bit :: rest =>
      any_field <- reduce Q_or (or_queries search_fields0 bit) ;;
      and_bits search_fields0 (Q_and select any_field) rest
  end.

(** forms.py:388-397: the search part of the filter and whether it asks
    for DISTINCT. *)
Definition search_select (m : Model) (search_fields0 : list string)
    (term0 : string) : result (Q * bool) :=
  let select := Q_empty in
  let use_distinct := false in
  if seq_truthy search_fields0 && str_truthy term0
  then
    select <- and_bits search_fields0 select (split term0) ;;
    whole <- reduce Q_or (or_queries search_fields0 term0) ;;
    Ok (Q_or select whole,
        use_distinct || any (lookup_spawns_duplicates m) search_fields0)
  else Ok (select, use_distinct).

(** [filter_queryset] (forms.py:365-409) *)
Definition filter_queryset (self : ModelTomSelectMixin)
    (request : SearchRequest) (term0 : string) (queryset0 : option QuerySet)
    (dependent_fields0 : list (string * string)) : result QuerySet :=
  qs <- match queryset0 with
        | None => get_queryset self
        | Some given => Ok given
        end ;;
  search_fields0 <- get_search_fields self ;;
  searched <- search_select (qs_model qs) search_fields0 term0 ;;
  let select := fst searched in
  let use_distinct := snd searched in
  let select :=
    if seq_truthy dependent_fields0
    then Q_and select (Q_kwargs dependent_fields0)
    else select in
  let use_distinct :=
    use_distinct
    || any (lookup_spawns_duplicates (qs_model qs)) (map fst dependent_fields0) in
  if use_distinct
  then Ok (qs_distinct (qs_filter qs select))
  else Ok (qs_filter qs select).

End Widgets.

End Forms.

Export Forms.

(** * The response endpoint *)

Module Views.

Section Endpoint.
Context `{orm : ORM} {fw : @Framework orm}.

(** How a row is shown to the client: its value and its label. *)
Variable row_value : Row -> string.
Variable label_from_instance : Row -> string.

Inductive Response :=
| NotFound
| JsonResponse (results : list (string * string)) (more : bool)
| ServerError (e : exn).

(** Modelled from the spec: the cache look-up of the response endpoint
    ([django_tom_select/views.py], which [urls.py] imports and which is not
    part of the sources at hand).  The key is the configured prefix plus
    the identifier of the request; what is looked up is a descriptor. *)
Definition lookup_descriptor (request : SearchRequest) (w : World)
  : option Descriptor :=
  match cache_get (TOM_SELECT_CACHE_PREFIX settings +:+ identifier request) w with
  | Some (ModelEntry d) => Some d
  | Some (HeavyEntry _ _) => None
  | None => None
  end.

(** Modelled from the spec: the widget that the endpoint puts together
    again from a descriptor, with the live query rebuilt from the two
    stored halves of the base query. *)
Definition widget_of_descriptor (request : SearchRequest) (d : Descriptor)
  : ModelTomSelectMixin :=
  {| heavy := {| cls := d_cls d;
                 attrs := [];
                 choices := PlainChoices [];
                 uuid := identifier request;
                 field_id := signing_dumps (identifier request);
                 data_view := None;
                 data_url := Some (d_url d);
                 dependent_fields := d_dependent_fields d;
                 userGetValTextFuncName := "null" |};
     model := None;
     queryset := Some (qs_with_query (fst (d_queryset d)) (snd (d_queryset d)));
     search_fields := d_search_fields d;
     max_results := d_max_results d |}.

(** Modelled from the spec: one page of at most [max_results] rows; a page
    that is exactly full reports that there may be more. *)
Definition paginate (max : Z) (page0 : Z) (rows : list Row)
  : list Row * bool :=
  let size := Z.to_nat max in
  let items := take size (drop (Z.to_nat (page0 - 1) * size) rows) in
  (items, Nat.eqb (length items) size).

(** Modelled from the spec: the response endpoint ([AutoResponseView] of
    [django_tom_select/views.py], absent from the sources).  It looks the
    descriptor up, answers not-found when there is none, and otherwise
    rebuilds the query, runs [filter_queryset] and returns one page of
    value and label pairs. *)
Definition AutoResponseView_get (db : Model -> list Row)
    (request : SearchRequest) (w : World) : Response :=
  match lookup_descriptor request w with
  | None => NotFound
  | Some d =>
      let widget := widget_of_descriptor request d in
      match filter_queryset widget request (term request) None
              (dependent_values request) with
      | Raise e => ServerError e
      | Ok qs =>
          let paged := paginate (d_max_results d) (page request) (qs_rows db qs) in
          JsonResponse
            (map (fun r => (row_value r, label_from_instance r)) (fst paged))
            (snd paged)
      end
  end.

End Endpoint.

End Views.

Export Views.

(** * Rendering attributes and the package module *)

Module Rendering.

(** [django.forms.Widget.build_attrs]: the base attributes, overwritten by
    the extra ones. *)
Definition Widget_build_attrs (base_attrs : gmap string string)
    (extra_attrs : option (gmap string string)) : gmap string string :=
  default ∅ extra_attrs ∪ base_attrs.

(** [TomSelectMixin.css_class_name] (forms.py:75) *)
Definition css_class_name : string := "django-tom-select".

(** [TomSelectMixin.build_attrs] (forms.py:80-91), over the [build_attrs]
    that [super()] resolves to. *)
Definition TomSelectMixin_build_attrs
    (super_build_attrs : gmap string string -> option (gmap string string)
                         -> gmap string string)
    (base_attrs : gmap string string)
    (extra_attrs : option (gmap string string)) : gmap string string :=
  let default_attrs := base_attrs ∪ {["data-create" := "false"]} in
  let attrs0 := super_build_attrs default_attrs extra_attrs in
  match attrs0 !! "class" with
  | Some given => <["class" := given +:+ " " +:+ css_class_name]> attrs0
  | None => <["class" := css_class_name]> attrs0
  end.

(** [TomSelectTagMixin.build_attrs] (forms.py:124-130) *)
Definition TomSelectTagMixin_build_attrs
    (super_build_attrs : gmap string string -> option (gmap string string)
                         -> gmap string string)
    (base_attrs : gmap string string)
    (extra_attrs : option (gmap string string)) : gmap string string :=
  let default_attrs := base_attrs ∪ {["data-delimiter" := ","]} in
  super_build_attrs default_attrs extra_attrs.

(** The method resolution order of the light widgets: [TomSelectWidget]
    and [TomSelectMultipleWidget] (forms.py:133, 155), and
    [TomSelectTagWidget] (forms.py:163). *)
Definition TomSelectWidget_build_attrs :=
  TomSelectMixin_build_attrs Widget_build_attrs.

Definition TomSelectTagWidget_build_attrs :=
  TomSelectTagMixin_build_attrs TomSelectWidget_build_attrs.

(** How [build_attrs] of a Heavy widget can end: with the attributes, with
    the exception of [get_url], or with the [KeyError] of
    [attrs["class"] += ...] on a dict without that key. *)
Inductive built :=
| Built (attrs0 : gmap string string)
| BuildRaise (e : exn)
| BuildKeyError (key : string).

Section Heavy.
Context `{orm : ORM} {fw : @Framework orm}.

(** [HeavyTomSelectMixin.build_attrs] (forms.py:226-244) *)
Definition HeavyTomSelectMixin_build_attrs
    (super_build_attrs : gmap string string -> option (gmap string string)
                         -> gmap string string)
    (self : HeavyTomSelectMixin) (base_attrs : gmap string string)
    (extra_attrs : option (gmap string string)) : built :=
  match get_url self with
  | Raise e => BuildRaise e
  | Ok url =>
      let default_attrs : gmap string string :=
        <["data-ajax--type" := "GET"]>
          (<["data-ajax--cache" := "true"]> {["data-ajax--url" := url]}) in
      let default_attrs :=
        if seq_truthy (dependent_fields self)
        then <["data-tom-select-dependent-fields" :=
                 String.concat " " (map fst (dependent_fields self))]>
               default_attrs
        else default_attrs in
      let default_attrs := base_attrs ∪ default_attrs in
      let attrs0 := super_build_attrs default_attrs extra_attrs in
      let attrs0 := <["data-field_id" := field_id self]> attrs0 in
      match attrs0 !! "class" with
      | Some given =>
          Built (<["class" := given +:+ " django-tom-select-heavy"]> attrs0)
      | None => BuildKeyError "class"
      end
  end.

(** The method resolution order of the Heavy widgets (forms.py:269, 290,
    294); the Model widgets do not override [build_attrs]. *)
Definition HeavyTomSelectWidget_build_attrs :=
  HeavyTomSelectMixin_build_attrs TomSelectWidget_build_attrs.

Definition HeavyTomSelectTagWidget_build_attrs :=
  HeavyTomSelectMixin_build_attrs TomSelectTagWidget_build_attrs.

(** The defaults that [HeavyTomSelectMixin.build_attrs] starts from. *)
Definition heavy_default_attrs (self : HeavyTomSelectMixin) (url : string)
  : gmap string string :=
  let default_attrs : gmap string string :=
    <["data-ajax--type" := "GET"]>
      (<["data-ajax--cache" := "true"]> {["data-ajax--url" := url]}) in
  if seq_truthy (dependent_fields self)
  then <["data-tom-select-dependent-fields" :=
           String.concat " " (map fst (dependent_fields self))]> default_attrs
  else default_attrs.

End Heavy.

(** [django_tom_select/__init__.py]: [default_app_config] is bound when
    the version string of Django is smaller than ["3.2"] in the order of
    Python strings, which compares character by character. *)
Definition default_app_config (django_version : string) : option string :=
  if String.ltb django_version "3.2"
  then Some "django_tom_select.apps.TomSelectAppConfig"
  else None.

End Rendering.

Export Rendering.

(** * What the filter means

    The notions in which the properties of [filter_queryset] are stated. *)

Section Meaning.
Context `{orm : ORM} {fw : @Framework orm}.

(** Some search field matches the given word. *)
Definition any_field_matches (r : Row) (fields : list string) (word : string)
  : bool :=
  existsb (fun f => lookup_matches r f word) fields.

(** Every dependent-field condition holds of the row. *)
Definition dependent_match (r : Row) (deps : list (string * string)) : bool :=
  forallb (fun kv => lookup_matches r (fst kv) (snd kv)) deps.

(** The search filter as the specification words it: every word of the
    term matches some field, or the whole term matches some field. *)
Definition spec_search_matches (r : Row) (fields : list string) (term0 : string)
  : bool :=
  forallb (any_field_matches r fields) (split term0)
  || any_field_matches r fields term0.

(** Every character of the string is whitespace. *)
Fixpoint all_whitespace (s : string) : bool :=
  match s with
  | EmptyString => true
  | String c rest => isspace c && all_whitespace rest
  end.

(** No character of the string is whitespace. *)
Fixpoint no_whitespace (s : string) : bool :=
  match s with
  | EmptyString => true
  | String c rest => negb (isspace c) && no_whitespace rest
  end.

(** A Q object that is either non-empty or [Q()]. *)
Definition Q_plain (q : Q) : Prop := Q_truthy q = true \/ q = Q_empty.

(** What the search part of the filter selects: nothing is filtered for an
    empty term; for a term of whitespace only, the whole-term match; and
    otherwise the words or the whole term. *)
Definition search_matches (r : Row) (fields : list string) (term0 : string)
  : bool :=
  if str_truthy term0
  then (if seq_truthy (split term0)
        then spec_search_matches r fields term0
        else any_field_matches r fields term0)
  else true.

(** The base query set of a call: the one passed in, or the widget's. *)
Definition base_queryset (self : ModelTomSelectMixin)
    (queryset0 : option QuerySet) : result QuerySet :=
  match queryset0 with
  | None => get_queryset self
  | Some given => Ok given
  end.

(** Whether [filter_queryset] asks for DISTINCT. *)
Definition needs_distinct (m : Model) (fields : list string) (term0 : string)
    (deps : list (string * string)) : bool :=
  (str_truthy term0 && existsb (lookup_spawns_duplicates m) fields)
  || existsb (lookup_spawns_duplicates m) (map fst deps).

(** A lookup that can produce duplicate rows is in use: a search field
    while the term is non-empty, or a dependent field. *)
Definition duplicating_lookup_used (m : Model) (fields : list string)
    (term0 : string) (deps : list (string * string)) : Prop :=
  (term0 <> "" /\ exists f, In f fields /\ lookup_spawns_duplicates m f = true)
  \/ (exists kv, In kv deps /\ lookup_spawns_duplicates m (fst kv) = true).

End Meaning.

(** * A test application

    A small database and framework in the manner of [tests/testapp]: rows
    with a primary key, a title and a country, the lookups that the test
    widgets use, and one lookup through a many-to-many relation. *)

Module Testapp.

Record Album := {
  pk : string;
  title : string;
  country : string
}.

#[export] Instance Album_eq_dec : EqDecision Album.
Proof. solve_decision. Defined.

Definition lower (c : ascii) : ascii :=
  let n := nat_of_ascii c in
  if (65 <=? n)%nat && (n <=? 90)%nat then ascii_of_nat (n + 32) else c.

Fixpoint lower_str (s : string) : string :=
  match s with
  | EmptyString => EmptyString
  | String c rest => String (lower c) (lower_str rest)
  end.

Fixpoint contains (needle hay : string) : bool :=
  String.prefix needle hay
  || match hay with
     | EmptyString => false
     | String _ rest => contains needle rest
     end.

Definition album_matches (r : Album) (lookup value : string) : bool :=
  if String.eqb lookup "title__icontains"
  then contains (lower_str value) (lower_str (title r))
  else if String.eqb lookup "pk__startswith" then String.prefix value (pk r)
  else if String.eqb lookup "country" then String.eqb (country r) value
  else if String.eqb lookup "genres__title__icontains"
  then contains (lower_str value) (lower_str (title r))
  else false.

Definition album_spawns_duplicates (m : Model) (lookup : string) : bool :=
  String.prefix "genres__" lookup.

#[export] Instance album_orm : ORM := {|
  Row := Album;
  lookup_matches := album_matches;
  lookup_spawns_duplicates := album_spawns_duplicates
|}.

Definition known_views : list (string * string) :=
  [("django_tom_select:auto-json", "/tomselect/fields/auto.json");
   ("heavy_data_1", "/heavy_data_1");
   ("heavy_data_2", "/heavy_data_2")].

Fixpoint assoc (key : string) (l : list (string * string)) : option string :=
  match l with
  | [] => None
  | (k, v) :: rest => if String.eqb k key then Some v else assoc key rest
  end.

Definition test_reverse (viewname : option string) : result string :=
  match viewname with
  | None => Raise (NoReverseMatch "")
  | Some name =>
      match assoc name known_views with
      | Some url => Ok url
      | None => Raise (NoReverseMatch name)
      end
  end.

Fixpoint repeat_char (c : ascii) (n : nat) : string :=
  match n with
  | O => EmptyString
  | S k => String c (repeat_char c k)
  end.

#[export] Instance test_framework : @Framework album_orm := {|
  settings := TomSelectConf;
  uuid4 := fun n => "uuid-" +:+ repeat_char "x" n;
  signing_dumps := fun s => s +:+ ":signature";
  reverse := test_reverse;
  super_render := fun self args => Ok ("<select name=" +:+ render_name args +:+ ">");
  picklable := fun _ => true
|}.

Definition Albums : Model := ModelClass "Album".

Definition the_great_gatsby : Album :=
  {| pk := "1"; title := "The Great Gatsby"; country := "us" |}.
Definition abc : Album :=
  {| pk := "2"; title := "abc"; country := "de" |}.
Definition great_expectations : Album :=
  {| pk := "3"; title := "Great Expectations"; country := "uk" |}.

Definition test_db (m : Model) : list Album :=
  [the_great_gatsby; abc; great_expectations].

Definition title_fields : list string := ["title__icontains"; "pk__startswith"].

(** [TitleModelTomSelectWidget] of [tests/testapp/forms.py] on albums. *)
Definition title_widget : ModelTomSelectMixin := {|
  heavy := {| cls := "TitleModelTomSelectWidget";
              attrs := [];
              choices := PlainChoices [];
              uuid := uuid4 0;
              field_id := signing_dumps (uuid4 0);
              data_view := Some "django_tom_select:auto-json";
              data_url := None;
              dependent_fields := [];
              userGetValTextFuncName := "null" |};
  model := Some Albums;
  queryset := None;
  search_fields := title_fields;
  max_results := 25
|}.

(** A Model widget that declares nothing and sits on a model choice field,
    as in the tip of forms.py:525-528. *)
Definition foreign_key_widget : ModelTomSelectMixin := {|
  heavy := {| cls := "ModelTomSelectWidget";
              attrs := [];
              choices := ModelChoiceIterator (manager_all Albums);
              uuid := uuid4 0;
              field_id := signing_dumps (uuid4 0);
              data_view := Some "django_tom_select:auto-json";
              data_url := None;
              dependent_fields := [];
              userGetValTextFuncName := "null" |};
  model := None;
  queryset := None;
  search_fields := [];
  max_results := 25
|}.

(** A Model widget with nothing to take a query set from. *)
Definition bare_widget : ModelTomSelectMixin := {|
  heavy := {| cls := "ModelTomSelectWidget";
              attrs := [];
              choices := PlainChoices [];
              uuid := uuid4 0;
              field_id := signing_dumps (uuid4 0);
              data_view := Some "django_tom_select:auto-json";
              data_url := None;
              dependent_fields := [];
              userGetValTextFuncName := "null" |};
  model := None;
  queryset := None;
  search_fields := [];
  max_results := 25
|}.

(** [PrimaryGenreDataUrlWidget] of [tests/testapp/forms.py]. *)
Definition PrimaryGenreDataUrlWidget : HeavyClass := {|
  decl_name := "PrimaryGenreDataUrlWidget";
  decl_data_view := None;
  decl_data_url := Some "/heavy_data_2/";
  decl_dependent_fields := []
|}.

Definition primary_genre_widget : HeavyTomSelectMixin := {|
  cls := "PrimaryGenreDataUrlWidget";
  attrs := [];
  choices := PlainChoices [];
  uuid := uuid4 0;
  field_id := signing_dumps (uuid4 0);
  data_view := None;
  data_url := Some "/heavy_data_2/";
  dependent_fields := [];
  userGetValTextFuncName := "null"
|}.

Definition fresh_world : World := {| drawn := 0; cache := ∅ |}.
Definition world_after_init : World := {| drawn := 1; cache := ∅ |}.

Definition genre_args : RenderArgs :=
  {| render_name := "primary_genre"; render_value := [] |}.

Definition request0 : SearchRequest :=
  {| identifier := uuid4 0; term := ""; dependent_values := []; page := 1 |}.

Definition genre_key : string := "tomselect_" +:+ uuid4 0.

Definition genre_entry : CacheValue :=
  HeavyEntry primary_genre_widget "/heavy_data_2/".

Definition world_rendered : World :=
  cache_set genre_key genre_entry world_after_init.

(** A query set that was evaluated: it carries the rows it fetched. *)
Definition fetched_albums : QuerySet :=
  qs_fetch_all test_db (manager_all Albums).

Definition fetched_widget : ModelTomSelectMixin := {|
  heavy := heavy title_widget;
  model := None;
  queryset := Some fetched_albums;
  search_fields := title_fields;
  max_results := 25
|}.

Definition data_url_kwargs : HeavyKwargs := {|
  kw_data_view := None;
  kw_data_url := Some (Some "/url/to/json/response");
  kw_dependent_fields := None;
  kw_userGetValTextFuncName := None
|}.

(** [ArtistDataViewWidget] of [tests/testapp/forms.py], constructed after
    [primary_genre_widget]. *)
Definition ArtistDataViewWidget : HeavyClass := {|
  decl_name := "ArtistDataViewWidget";
  decl_data_view := Some "heavy_data_1";
  decl_data_url := None;
  decl_dependent_fields := []
|}.

Definition artist_widget : HeavyTomSelectMixin := {|
  cls := "ArtistDataViewWidget";
  attrs := [];
  choices := PlainChoices [];
  uuid := uuid4 1;
  field_id := signing_dumps (uuid4 1);
  data_view := Some "heavy_data_1";
  data_url := None;
  dependent_fields := [];
  userGetValTextFuncName := "null"
|}.

Definition world_after_two_inits : World := {| drawn := 2; cache := ∅ |}.

Definition artist_args : RenderArgs :=
  {| render_name := "artist"; render_value := [] |}.

Definition artist_key : string := "tomselect_" +:+ uuid4 1.

(** The city widget of [AddressChainedTomSelectWidgetForm]: it depends on
    the country field. *)
Definition city_widget : HeavyTomSelectMixin := {|
  cls := "ModelTomSelectWidget";
  attrs := [];
  choices := PlainChoices [];
  uuid := uuid4 0;
  field_id := signing_dumps (uuid4 0);
  data_view := Some "django_tom_select:auto-json";
  data_url := None;
  dependent_fields := [("country", "country")];
  userGetValTextFuncName := "null"
|}.

(** [title_widget] with its search fields the other way round. *)
Definition swapped_widget : ModelTomSelectMixin := {|
  heavy := heavy title_widget;
  model := Some Albums;
  queryset := None;
  search_fields := ["pk__startswith"; "title__icontains"];
  max_results := 25
|}.

(** [foreign_key_widget] with search fields. *)
Definition foreign_key_title_widget : ModelTomSelectMixin := {|
  heavy := heavy foreign_key_widget;
  model := None;
  queryset := None;
  search_fields := title_fields;
  max_results := 25
|}.

Definition model_kwargs_none : ModelKwargs := {|
  kw_model := None;
  kw_queryset := None;
  kw_search_fields := None;
  kw_max_results := None;
  kw_heavy := no_kwargs
|}.

(** A subclass of the Model widget that declares a view of its own. *)
Definition OwnViewWidget : ModelWidgetClass := {|
  decl_heavy := {| decl_name := "OwnViewWidget";
                   decl_data_view := Some "heavy_data_1";
                   decl_data_url := None;
                   decl_dependent_fields := [] |};
  decl_model := Some Albums;
  decl_queryset := None;
  decl_search_fields := title_fields;
  decl_max_results := 25
|}.

(** A Model widget with search fields and nowhere to take a query set
    from. *)
Definition orphan_widget : ModelTomSelectMixin := {|
  heavy := heavy bare_widget;
  model := None;
  queryset := None;
  search_fields := title_fields;
  max_results := 25
|}.

End Testapp.

(** * [str.split] on the terms of the tests *)

Example split_the_great : split "the great" = ["the"; "great"].
Proof. reflexivity. Qed.

Example split_padded : split "  the   great " = ["the"; "great"].
Proof. reflexivity. Qed.

Example split_blank : split " " = [].
Proof. reflexivity. Qed.

Example split_empty : split "" = [].
Proof. reflexivity. Qed.

Lemma append_char_truthy (word : string) (c : ascii) :
  str_truthy (word +:+ String c "") = true.
Proof. now destruct word. Qed.

(** [split] gives no word exactly for the strings of whitespace only. *)
Lemma split_from_nil (s : string) : forall word,
  split_from word s = [] <-> word = "" /\ all_whitespace s = true.
Proof.
  induction s as [|c rest IH]; intros word; simpl.
  - destruct word; simpl; split; try tauto; try discriminate.
    intros [H _]; discriminate.
  - destruct (isspace c); simpl.
    + destruct word as [|a word']; simpl.
      * rewrite IH. tauto.
      * split; [discriminate | intros [H _]; discriminate].
    + rewrite IH. split.
      * intros [H _]. pose proof (append_char_truthy word c) as Ht.
        rewrite H in Ht. discriminate.
      * intros [_ H]. discriminate.
Qed.

Lemma split_nil_iff (s : string) :
  split s = [] <-> all_whitespace s = true.
Proof. unfold split. rewrite split_from_nil. tauto. Qed.

(** * Properties of the search filter *)

Section FilterFacts.
Context `{orm : ORM} {fw : @Framework orm}.

Lemma Q_kwargs_holds (r : Row) (kwargs : list (string * string)) :
  Q_holds r (Q_kwargs kwargs) = dependent_match r kwargs.
Proof.
  unfold Q_kwargs, dependent_match. simpl.
  induction kwargs as [|kv rest IH]; simpl; [reflexivity|].
  now rewrite IH.
Qed.

Lemma Q_kwargs_truthy (kwargs : list (string * string)) :
  Q_truthy (Q_kwargs kwargs) = seq_truthy kwargs.
Proof. now destruct kwargs. Qed.

Lemma Q_or_truthy (a b : Q) :
  Q_truthy a = true -> Q_truthy b = true ->
  Q_truthy (Q_or a b) = true /\
  forall r, Q_holds r (Q_or a b) = Q_holds r a || Q_holds r b.
Proof.
  intros Ha Hb. unfold Q_or, Q_combine. rewrite Ha, Hb. simpl.
  split; [reflexivity|]. intros r. now rewrite orb_false_r.
Qed.

Lemma Q_or_empty_l (b : Q) : Q_or Q_empty b = b.
Proof. reflexivity. Qed.

Lemma Q_and_plain (a b : Q) :
  Q_plain a -> Q_truthy b = true ->
  Q_truthy (Q_and a b) = true /\
  forall r, Q_holds r (Q_and a b) = Q_holds r a && Q_holds r b.
Proof.
  intros [Ha | ->] Hb.
  - unfold Q_and, Q_combine. rewrite Ha, Hb. simpl.
    split; [reflexivity|]. intros r. now rewrite andb_true_r.
  - unfold Q_and, Q_combine. simpl. split; [exact Hb|]. reflexivity.
Qed.

Lemma fold_left_Q_or (l : list Q) : forall acc,
  Q_truthy acc = true -> Forall (fun q => Q_truthy q = true) l ->
  Q_truthy (fold_left Q_or l acc) = true /\
  forall r, Q_holds r (fold_left Q_or l acc)
            = Q_holds r acc || existsb (Q_holds r) l.
Proof.
  induction l as [|q rest IH]; intros acc Hacc Hall; simpl.
  - split; [exact Hacc|]. intros r. now rewrite orb_false_r.
  - inversion Hall as [|? ? Hq Hrest]; subst.
    destruct (Q_or_truthy acc q Hacc Hq) as [Ht Hh].
    destruct (IH (Q_or acc q) Ht Hrest) as [Ht' Hh'].
    split; [exact Ht'|]. intros r. rewrite Hh', Hh. now rewrite orb_assoc.
Qed.

Lemma or_queries_truthy (fields : list string) (word : string) :
  Forall (fun q => Q_truthy q = true) (or_queries fields word).
Proof.
  unfold or_queries. induction fields; simpl; constructor; auto.
Qed.

Lemma or_queries_holds (r : Row) (fields : list string) (word : string) :
  existsb (Q_holds r) (or_queries fields word) = any_field_matches r fields word.
Proof.
  unfold or_queries, any_field_matches.
  induction fields as [|f rest IH]; simpl; [reflexivity|].
  now rewrite IH, andb_true_r.
Qed.

(** [reduce(operator.or_, or_queries)] does not raise when there is a
    search field, and is the disjunction over the fields. *)
Lemma reduce_or_queries (fields : list string) (word : string) :
  fields <> [] ->
  exists q, reduce Q_or (or_queries fields word) = Ok q /\
            Q_truthy q = true /\
            forall r, Q_holds r q = any_field_matches r fields word.
Proof.
  intros Hne. destruct fields as [|f rest]; [congruence|].
  pose proof (or_queries_truthy rest word) as Hall.
  destruct (fold_left_Q_or (or_queries rest word)
              (Q_kwargs [(f, word)]) eq_refl Hall) as [Ht Hh].
  eexists. split; [reflexivity|]. split; [exact Ht|].
  intros r. unfold or_queries in *. simpl. rewrite Hh.
  fold (or_queries rest word). rewrite or_queries_holds.
  unfold any_field_matches. simpl. now rewrite andb_true_r.
Qed.

(** The loop over the words: the conjunction, over the words, of the
    disjunction over the fields. *)
Lemma and_bits_spec (fields : list string) (bits : list string) :
  fields <> [] ->
  forall select, Q_plain select ->
  exists q, and_bits fields select bits = Ok q /\
            Q_plain q /\
            (bits <> [] -> Q_truthy q = true) /\
            forall r, Q_holds r q
                      = Q_holds r select
                        && forallb (any_field_matches r fields) bits.
Proof.
  intros Hne. induction bits as [|bit rest IH]; intros select Hplain; simpl.
  - exists select. split; [reflexivity|]. split; [exact Hplain|].
    split; [congruence|]. intros r. now rewrite andb_true_r.
  - destruct (reduce_or_queries fields bit Hne) as (d & Hd & Hdt & Hdh).
    rewrite Hd. simpl.
    destruct (Q_and_plain select d Hplain Hdt) as [Hat Hah].
    destruct (IH (Q_and select d) (or_introl Hat)) as (q & Hq & Hqp & Hqt & Hqh).
    exists q. split; [exact Hq|]. split; [exact Hqp|]. split.
    + intros _. destruct rest as [|b rest'].
      * simpl in Hq. injection Hq as <-. exact Hat.
      * apply Hqt. congruence.
    + intros r. rewrite Hqh, Hah, Hdh. now rewrite andb_assoc.
Qed.

Lemma search_select_spec (m : Model) (fields : list string) (term0 : string) :
  fields <> [] ->
  exists q, search_select m fields term0
            = Ok (q, str_truthy term0
                     && any (lookup_spawns_duplicates m) fields) /\
            Q_plain q /\
            forall r, Q_holds r q = search_matches r fields term0.
Proof.
  intros Hne. unfold search_select, search_matches.
  assert (Hf : seq_truthy fields = true) by (destruct fields; [congruence | reflexivity]).
  rewrite Hf. simpl. destruct (str_truthy term0) eqn:Ht; simpl.
  - destruct (and_bits_spec fields (split term0) Hne Q_empty (or_intror eq_refl))
      as (s & Hs & Hsp & Hst & Hsh).
    destruct (reduce_or_queries fields term0 Hne) as (wh & Hw & Hwt & Hwh).
    rewrite Hs, Hw. simpl.
    destruct (split term0) as [|b bs] eqn:Hsplit.
    + simpl in Hs. injection Hs as <-. rewrite Q_or_empty_l.
      exists wh. split; [reflexivity|]. split; [now left|]. exact Hwh.
    + assert (Hs' : Q_truthy s = true) by (apply Hst; congruence).
      destruct (Q_or_truthy s wh Hs' Hwt) as [Hot Hoh].
      exists (Q_or s wh). split; [reflexivity|]. split; [now left|].
      intros r. rewrite Hoh, Hsh, Hwh. unfold spec_search_matches.
      rewrite Hsplit. reflexivity.
  - exists Q_empty. split; [reflexivity|]. split; [now right|]. reflexivity.
Qed.

(** [filter_queryset] in one equation: it returns the base query set with
    one more condition, made DISTINCT when a lookup asks for it, and the
    condition is the search part and every dependent-field condition. *)
Lemma filter_queryset_spec (self : ModelTomSelectMixin) (request : SearchRequest)
    (term0 : string) (queryset0 : option QuerySet)
    (deps : list (string * string)) (qs : QuerySet) :
  base_queryset self queryset0 = Ok qs ->
  search_fields self <> [] ->
  exists select,
    filter_queryset self request term0 queryset0 deps
    = Ok (if needs_distinct (qs_model qs) (search_fields self) term0 deps
          then qs_distinct (qs_filter qs select)
          else qs_filter qs select) /\
    Q_plain select /\
    forall r, Q_holds r select
              = search_matches r (search_fields self) term0
                && dependent_match r deps.
Proof.
  intros Hbase Hne. unfold filter_queryset.
  unfold base_queryset in Hbase. rewrite Hbase. simpl.
  unfold get_search_fields.
  assert (Hf : seq_truthy (search_fields self) = true)
    by (destruct (search_fields self); [congruence | reflexivity]).
  rewrite Hf. simpl.
  destruct (search_select_spec (qs_model qs) (search_fields self) term0 Hne)
    as (q & Hq & Hqp & Hqh).
  rewrite Hq. simpl. unfold needs_distinct, any.
  destruct deps as [|kv rest] eqn:Hdeps.
  - simpl. exists q. split.
    + now destruct (str_truthy term0 && _ || false).
    + split; [exact Hqp|]. intros r. rewrite Hqh. now rewrite andb_true_r.
  - rewrite <- Hdeps. assert (Hd : seq_truthy deps = true) by now subst.
    rewrite Hd.
    destruct (Q_and_plain q (Q_kwargs deps) Hqp) as [Hat Hah].
    { now rewrite Q_kwargs_truthy. }
    exists (Q_and q (Q_kwargs deps)). split.
    + now destruct (str_truthy term0 && _ || _).
    + split; [now left|]. intros r. now rewrite Hah, Hqh, Q_kwargs_holds.
Qed.

End FilterFacts.

(** * The rows of a filtered query set *)

Section RowFacts.
Context `{orm : ORM}.

Lemma In_query_rows (db : Model -> list Row) (m : Model) (query : Query)
    (r : Row) :
  In r (query_rows db m query) <->
  q_empty query = false /\ In r (db m) /\
  forallb (Q_holds r) (q_where query) = true.
Proof.
  unfold query_rows. destruct (q_empty query).
  - simpl. split; [contradiction | intros [H _]; discriminate].
  - destruct (q_distinct query).
    + rewrite <- list_elem_of_In, elem_of_remove_dups, list_elem_of_In.
      rewrite filter_In. tauto.
    + rewrite filter_In. tauto.
Qed.

(** A row is in the filtered query set exactly when it is a row of the
    base query and the added condition holds of it, with or without
    DISTINCT. *)
Lemma In_filtered_rows (db : Model -> list Row) (qs : QuerySet) (select : Q)
    (with_distinct : bool) (r : Row) :
  In r (qs_rows db (if with_distinct
                    then qs_distinct (qs_filter qs select)
                    else qs_filter qs select)) <->
  In r (query_rows db (qs_model qs) (qs_query qs)) /\ Q_holds r select = true.
Proof.
  destruct with_distinct; unfold qs_rows; simpl;
    rewrite !In_query_rows; simpl; rewrite forallb_app; simpl;
    rewrite andb_true_r, andb_true_iff; tauto.
Qed.

(** Filtering by [Q()] keeps every row of the base query. *)
Lemma query_rows_filter_empty (db : Model -> list Row) (qs : QuerySet) :
  qs_rows db (qs_filter qs Q_empty)
  = query_rows db (qs_model qs) (qs_query qs).
Proof.
  unfold qs_rows, query_rows. simpl.
  destruct (q_empty (qs_query qs)); [reflexivity|].
  assert (Hext : List.filter
                   (fun r => forallb (Q_holds r) (q_where (qs_query qs) ++ [Q_empty]))
                   (db (qs_model qs))
                 = List.filter
                     (fun r => forallb (Q_holds r) (q_where (qs_query qs)))
                     (db (qs_model qs))).
  { apply filter_ext. intros r. rewrite forallb_app. simpl.
    now rewrite andb_true_r. }
  now rewrite Hext.
Qed.

(** A DISTINCT query set has no row twice. *)
Lemma NoDup_distinct_rows (db : Model -> list Row) (qs : QuerySet) :
  NoDup (qs_rows db (qs_distinct qs)).
Proof.
  unfold qs_rows, query_rows. simpl.
  destruct (q_empty (qs_query qs)); [constructor|].
  apply NoDup_remove_dups.
Qed.

End RowFacts.

(** * The search and filter engine *)

Section SearchEngine.
Context `{orm : ORM} {fw : @Framework orm}.

(** C1 (amended).  For a widget with search fields and a non-empty term,
    [filter_queryset] selects, among the rows of the base query, those that
    satisfy the filter built from the term: when the term has at least one
    word, a row is selected iff every word matches some search field or the
    whole term matches some search field; when the term is made of
    whitespace only (no word), a row is selected iff the whole term matches
    some search field. *)
Theorem filter_queryset_words_or_phrase
    (self : ModelTomSelectMixin) (request : SearchRequest) (term0 : string)
    (queryset0 : option QuerySet) (qs : QuerySet) :
  base_queryset self queryset0 = Ok qs ->
  search_fields self <> [] ->
  term0 <> "" ->
  exists result,
    filter_queryset self request term0 queryset0 [] = Ok result /\
    forall db r,
      In r (qs_rows db result) <->
      In r (query_rows db (qs_model qs) (qs_query qs)) /\
      (if seq_truthy (split term0)
       then forallb (any_field_matches r (search_fields self)) (split term0)
            || any_field_matches r (search_fields self) term0
       else any_field_matches r (search_fields self) term0) = true.
Proof.
  intros Hbase Hfields Hterm.
  destruct (filter_queryset_spec self request term0 queryset0 [] qs Hbase Hfields)
    as (select & Hres & _ & Hholds).
  eexists. split; [exact Hres|].
  intros db r. rewrite In_filtered_rows, Hholds.
  unfold search_matches, spec_search_matches, dependent_match. simpl.
  rewrite andb_true_r.
  destruct term0 as [|c rest]; [congruence|]. reflexivity.
Qed.

Lemma needs_distinct_iff (m : Model) (fields : list string) (term0 : string)
    (deps : list (string * string)) :
  needs_distinct m fields term0 deps = true <->
  duplicating_lookup_used m fields term0 deps.
Proof.
  unfold needs_distinct, duplicating_lookup_used.
  rewrite orb_true_iff, andb_true_iff, !existsb_exists.
  split.
  - intros [[Ht Hf] | (k & Hk & Hs)].
    + left. split; [now destruct term0|]. exact Hf.
    + right. apply in_map_iff in Hk as (kv & <- & Hin). now exists kv.
  - intros [[Ht Hf] | (kv & Hin & Hs)].
    + left. split; [destruct term0; [congruence | reflexivity]|]. exact Hf.
    + right. exists (fst kv). split; [now apply in_map|]. exact Hs.
Qed.

(** C2.  [filter_queryset] makes the result DISTINCT exactly when a lookup
    in use (a search field, when the term is non-empty, or a dependent
    field) can produce duplicate rows; otherwise the result is the plain
    filter, with the rows of the plain filter. *)
Theorem filter_queryset_distinct_iff_duplicating_lookup
    (self : ModelTomSelectMixin) (request : SearchRequest) (term0 : string)
    (queryset0 : option QuerySet) (deps : list (string * string))
    (qs : QuerySet) :
  base_queryset self queryset0 = Ok qs ->
  search_fields self <> [] ->
  exists select result,
    filter_queryset self request term0 queryset0 deps = Ok result /\
    (duplicating_lookup_used (qs_model qs) (search_fields self) term0 deps ->
     result = qs_distinct (qs_filter qs select) /\
     q_distinct (qs_query result) = true /\
     forall db, NoDup (qs_rows db result)) /\
    (~ duplicating_lookup_used (qs_model qs) (search_fields self) term0 deps ->
     result = qs_filter qs select /\
     q_distinct (qs_query result) = q_distinct (qs_query qs) /\
     forall db, qs_rows db result = qs_rows db (qs_filter qs select)).
Proof.
  intros Hbase Hfields.
  destruct (filter_queryset_spec self request term0 queryset0 deps qs Hbase Hfields)
    as (select & Hres & _ & _).
  exists select. eexists. split; [exact Hres|].
  rewrite <- needs_distinct_iff.
  destruct (needs_distinct (qs_model qs) (search_fields self) term0 deps).
  - split; [intros _ | intros H; now destruct H].
    split; [reflexivity|]. split; [reflexivity|].
    intros db. apply NoDup_distinct_rows.
  - split; [intros H; discriminate | intros _; repeat split].
Qed.

(** C3.  The dependent-field conditions are joined to the search filter by
    AND: every row of the result satisfies every dependent-field condition,
    and when no row of the table satisfies them the result is empty,
    whatever the term. *)
Theorem filter_queryset_dependent_fields_and
    (self : ModelTomSelectMixin) (request : SearchRequest) (term0 : string)
    (queryset0 : option QuerySet) (deps : list (string * string))
    (qs : QuerySet) :
  base_queryset self queryset0 = Ok qs ->
  search_fields self <> [] ->
  exists result,
    filter_queryset self request term0 queryset0 deps = Ok result /\
    (forall db r,
       In r (qs_rows db result) <->
       In r (query_rows db (qs_model qs) (qs_query qs)) /\
       search_matches r (search_fields self) term0 = true /\
       forall kv, In kv deps -> lookup_matches r (fst kv) (snd kv) = true) /\
    (forall db,
       (forall r, In r (db (qs_model qs)) -> dependent_match r deps = false) ->
       qs_rows db result = []).
Proof.
  intros Hbase Hfields.
  destruct (filter_queryset_spec self request term0 queryset0 deps qs Hbase Hfields)
    as (select & Hres & _ & Hholds).
  eexists. split; [exact Hres|]. split.
  - intros db r. rewrite In_filtered_rows, Hholds, andb_true_iff.
    unfold dependent_match. rewrite forallb_forall. tauto.
  - intros db Hnone.
    destruct (qs_rows db _) as [|r rows] eqn:Hrows; [reflexivity|].
    assert (Hin : In r (r :: rows)) by now left.
    rewrite <- Hrows in Hin. apply In_filtered_rows in Hin as [Hbase_row Hsel].
    apply In_query_rows in Hbase_row as (_ & Htable & _).
    rewrite Hholds, (Hnone r Htable), andb_false_r in Hsel. discriminate.
Qed.

(** C8.  With no search field configured, [get_search_fields] raises
    [NotImplementedError], and so does every call of [filter_queryset]: no
    query set, empty or not, is returned. *)
Theorem filter_queryset_without_search_fields
    (self : ModelTomSelectMixin) (request : SearchRequest) (term0 : string)
    (queryset0 : option QuerySet) (deps : list (string * string)) :
  search_fields self = [] ->
  get_search_fields self
  = Raise (NotImplementedError (MsgMissingSearchFields (cls (heavy self)))) /\
  exists m,
    filter_queryset self request term0 queryset0 deps
    = Raise (NotImplementedError m).
Proof.
  intros Hempty. unfold get_search_fields.
  rewrite Hempty. simpl. split; [reflexivity|].
  unfold filter_queryset, get_search_fields. rewrite Hempty. simpl.
  destruct queryset0 as [given|]; simpl; [eauto|].
  unfold get_queryset.
  destruct (queryset self); simpl; [eauto|].
  destruct (choices_queryset (choices (heavy self))); simpl; [eauto|].
  destruct (model self); simpl; eauto.
Qed.

(** C9 (amended).  When the widget has no query set and no model, and its
    choices carry no query set either, [get_queryset] raises
    [NotImplementedError]. *)
Theorem get_queryset_unresolvable (self : ModelTomSelectMixin) :
  queryset self = None ->
  model self = None ->
  choices_queryset (choices (heavy self)) = None ->
  get_queryset self
  = Raise (NotImplementedError (MsgMissingQuerySet (cls (heavy self)))).
Proof.
  intros Hq Hm Hc. unfold get_queryset. now rewrite Hq, Hc, Hm.
Qed.

(** The converse: with any of the three sources, there is a query set. *)
Lemma get_queryset_resolvable (self : ModelTomSelectMixin) :
  queryset self <> None \/ model self <> None
  \/ choices_queryset (choices (heavy self)) <> None ->
  exists qs, get_queryset self = Ok qs.
Proof.
  intros H. unfold get_queryset.
  destruct (queryset self); [eauto|].
  destruct (choices_queryset (choices (heavy self))); [eauto|].
  destruct (model self); [eauto|].
  destruct H as [H | [H | H]]; congruence.
Qed.

(** C10.  With search fields, an empty term and no dependent-field value,
    [filter_queryset] returns the base query set filtered by [Q()]: no
    error, no DISTINCT added, and every row of the base query. *)
Theorem filter_queryset_empty_term
    (self : ModelTomSelectMixin) (request : SearchRequest)
    (queryset0 : option QuerySet) (qs : QuerySet) :
  base_queryset self queryset0 = Ok qs ->
  search_fields self <> [] ->
  filter_queryset self request "" queryset0 [] = Ok (qs_filter qs Q_empty) /\
  q_distinct (qs_query (qs_filter qs Q_empty)) = q_distinct (qs_query qs) /\
  forall db,
    qs_rows db (qs_filter qs Q_empty)
    = query_rows db (qs_model qs) (qs_query qs).
Proof.
  intros Hbase Hfields. split; [|split].
  - unfold filter_queryset, get_search_fields.
    unfold base_queryset in Hbase. rewrite Hbase. simpl.
    destruct (search_fields self) as [|f rest]; [congruence|]. reflexivity.
  - reflexivity.
  - intros db. apply query_rows_filter_empty.
Qed.

End SearchEngine.

(** * Registration of widgets in the cache *)

Section Registration.
Context `{orm : ORM} {fw : @Framework orm}.

Lemma cache_get_set (key : string) (value : CacheValue) (w : World) :
  cache_get key (cache_set key value w) = Some value.
Proof. unfold cache_get, cache_set. simpl. apply lookup_insert_eq. Qed.

Lemma cache_get_set_other (key key' : string) (value : CacheValue) (w : World) :
  key <> key' -> cache_get key' (cache_set key value w) = cache_get key' w.
Proof.
  intros Hne. unfold cache_get, cache_set. simpl. now apply lookup_insert_ne.
Qed.

Lemma cache_set_twice (key : string) (value : CacheValue) (w : World) :
  cache_set key value (cache_set key value w) = cache_set key value w.
Proof.
  unfold cache_set. simpl. f_equal. apply insert_insert_eq.
Qed.

Lemma cache_get_expire (key : string) (w : World) :
  cache_get key (cache_expire key w) = None.
Proof. unfold cache_get, cache_expire. simpl. apply lookup_delete_eq. Qed.

(** What a successful construction fixes: the identifier is the next value
    of [uuid4], it is signed into [field_id], and one value was drawn. *)
Lemma HeavyTomSelectMixin_init_identifier (klass : HeavyClass)
    (attrs0 choices0 : list (string * string)) (kwargs : HeavyKwargs)
    (w0 w1 : World) (self : HeavyTomSelectMixin) :
  HeavyTomSelectMixin_init klass attrs0 choices0 kwargs w0 = (Ok self, w1) ->
  uuid self = uuid4 (drawn w0) /\
  field_id self = signing_dumps (uuid self) /\
  drawn w1 = S (drawn w0) /\
  cache w1 = cache w0.
Proof.
  unfold HeavyTomSelectMixin_init.
  destruct (negb _); intros H; inversion H; subst; simpl. repeat split.
Qed.

(** C4 (amended).  The random identifier of a Heavy widget is drawn and
    signed once, when the widget is constructed, not on each render.  Every
    render that succeeds stores the descriptor under the key made of the
    configured prefix and that identifier, draws no identifier, and a
    repeated render of the same widget overwrites the same entry with the
    same value. *)
Theorem heavy_render_registers_under_constructed_identifier
    (klass : HeavyClass) (attrs0 choices0 : list (string * string))
    (kwargs : HeavyKwargs) (w0 w1 : World) (self : HeavyTomSelectMixin)
    (args : RenderArgs) (output url : string) (w : World) :
  HeavyTomSelectMixin_init klass attrs0 choices0 kwargs w0 = (Ok self, w1) ->
  super_render self args = Ok output ->
  get_url self = Ok url ->
  picklable self = true ->
  let key := TOM_SELECT_CACHE_PREFIX settings +:+ uuid4 (drawn w0) in
  let w' := cache_set key (HeavyEntry self url) w in
  field_id self = signing_dumps (uuid4 (drawn w0)) /\
  drawn w1 = S (drawn w0) /\
  Heavy_render self args w = Ok (output, w') /\
  cache_get key w' = Some (HeavyEntry self url) /\
  drawn w' = drawn w /\
  Heavy_render self args w' = Ok (output, w').
Proof.
  intros Hinit Hout Hurl Hpickle key w'.
  destruct (HeavyTomSelectMixin_init_identifier _ _ _ _ _ _ _ Hinit)
    as (Huuid & Hfield & Hdrawn & _).
  assert (Hrender : forall v, Heavy_render self args v
                              = Ok (output, cache_set key (HeavyEntry self url) v)).
  { intros v. unfold Heavy_render, render, Heavy_set_to_cache, _get_cache_key.
    rewrite Hout. simpl. rewrite Hurl. simpl. rewrite Hpickle. simpl.
    unfold key. now rewrite Huuid. }
  split; [now rewrite Hfield, Huuid|]. split; [exact Hdrawn|].
  split; [apply Hrender|]. split; [apply cache_get_set|].
  split; [reflexivity|].
  rewrite Hrender. unfold w'. now rewrite cache_set_twice.
Qed.

(** A render of a Heavy widget never draws an identifier. *)
Lemma Heavy_render_draws_nothing (self : HeavyTomSelectMixin)
    (args : RenderArgs) (w w' : World) (output : string) :
  Heavy_render self args w = Ok (output, w') -> drawn w' = drawn w.
Proof.
  unfold Heavy_render, render, Heavy_set_to_cache.
  destruct (super_render self args); simpl; [|discriminate].
  destruct (get_url self); simpl; [|discriminate].
  destruct (picklable self); simpl; [|discriminate].
  intros H. inversion H. reflexivity.
Qed.

(** A Model widget is rendered by the same method, with its own
    [set_to_cache]: a render that succeeds writes the descriptor under the
    key of the widget's identifier and draws nothing. *)
Lemma Model_render_registers (self : ModelTomSelectMixin) (args : RenderArgs)
    (output url : string) (qs : QuerySet) (w : World) :
  super_render (heavy self) args = Ok output ->
  get_queryset self = Ok qs ->
  get_url (heavy self) = Ok url ->
  exists d w',
    Model_render self args w = Ok (output, w') /\
    w' = cache_set (TOM_SELECT_CACHE_PREFIX settings +:+ uuid (heavy self))
           (ModelEntry d) w /\
    drawn w' = drawn w /\
    Model_render self args w' = Ok (output, w').
Proof.
  intros Hout Hqs Hurl.
  assert (Hrender : forall v, exists d, Model_render self args v
            = Ok (output,
                  cache_set (TOM_SELECT_CACHE_PREFIX settings +:+ uuid (heavy self))
                    (ModelEntry d) v) /\
            d = {| d_queryset := (qs_none qs, qs_query qs);
                   d_cls := cls (heavy self);
                   d_search_fields := search_fields self;
                   d_max_results := max_results self;
                   d_url := url;
                   d_dependent_fields := dependent_fields (heavy self) |}).
  { intros v. eexists. split; [|reflexivity].
    unfold Model_render, render, Model_set_to_cache, _get_cache_key.
    rewrite Hout. simpl. rewrite Hqs. simpl. rewrite Hurl. reflexivity. }
  destruct (Hrender w) as (d & Hw & Hd).
  exists d. eexists. split; [exact Hw|]. split; [reflexivity|].
  split; [reflexivity|].
  destruct (Hrender (cache_set (TOM_SELECT_CACHE_PREFIX settings +:+ uuid (heavy self))
                       (ModelEntry d) w)) as (d' & Hw' & Hd').
  rewrite Hw'. rewrite Hd', <- Hd. now rewrite cache_set_twice.
Qed.

(** A Model widget that is given no [data_view] gets the shared endpoint,
    so its construction does not fail for want of one. *)
Lemma ModelTomSelectMixin_init_default_view (klass : ModelWidgetClass)
    (attrs0 choices0 : list (string * string)) (kwargs : ModelKwargs)
    (w : World) :
  kw_data_view (kw_heavy kwargs) = None ->
  exists self,
    fst (ModelTomSelectMixin_init klass attrs0 choices0 kwargs w) = Ok self /\
    data_view (heavy self) = Some "django_tom_select:auto-json".
Proof.
  intros Hview. unfold ModelTomSelectMixin_init, HeavyTomSelectMixin_init.
  rewrite Hview. simpl. eauto.
Qed.

(** C6.  What [ModelTomSelectMixin.set_to_cache] writes holds the base
    query as the pair of the emptied query set and the query object, never
    as rows.  Pickling the emptied query set yields no row, even if the
    widget's query set had been evaluated, so it comes back from a pickling
    cache with an empty result; the query object comes back as the query of
    the base query set.  The pair is re-enumerable: the query set put
    together again from the two halves as they come back, once filtered
    (which clones it and drops the empty result), is the filtered base
    query set, and enumerates the rows of the base query in the database
    of the time of the request. *)
Theorem model_set_to_cache_stores_query_definition
    (self : ModelTomSelectMixin) (qs : QuerySet) (url : string) (w : World) :
  get_queryset self = Ok qs ->
  get_url (heavy self) = Ok url ->
  exists d,
    Model_set_to_cache self w
    = Ok (cache_set (_get_cache_key (heavy self)) (ModelEntry d) w) /\
    d_queryset d = (qs_none qs, qs_query qs) /\
    (forall db, qs_pickled_rows db (fst (d_queryset d)) = []) /\
    (forall db,
       d_queryset (descriptor_unpickled db d)
       = ({| qs_model := qs_model qs;
             qs_query := qs_query (qs_none qs);
             qs_result_cache := Some [] |},
          qs_query qs)) /\
    (forall db select,
       qs_filter
         (qs_with_query (fst (d_queryset (descriptor_unpickled db d)))
            (snd (d_queryset (descriptor_unpickled db d))))
         select
       = qs_filter qs select) /\
    (forall db db',
       qs_rows db'
         (qs_filter
            (qs_with_query (fst (d_queryset (descriptor_unpickled db d)))
               (snd (d_queryset (descriptor_unpickled db d))))
            Q_empty)
       = query_rows db' (qs_model qs) (qs_query qs)).
Proof.
  intros Hqs Hurl. eexists. split.
  - unfold Model_set_to_cache. rewrite Hqs. simpl. rewrite Hurl. simpl.
    reflexivity.
  - simpl. split; [reflexivity|]. split; [reflexivity|].
    split; [reflexivity|]. split; [reflexivity|].
    intros db db'. apply (query_rows_filter_empty db' qs).
Qed.

(** The query set put together again from the two halves that came back
    from a pickling cache is an evaluated, empty one: enumerated as it is,
    without the clone that [filter] makes, it gives no row. *)
Lemma reassembled_query_set_is_evaluated (d : Descriptor) (qs : QuerySet)
    (db db' : Model -> list Row) :
  d_queryset d = (qs_none qs, qs_query qs) ->
  qs_rows db'
    (qs_with_query (fst (d_queryset (descriptor_unpickled db d)))
       (snd (d_queryset (descriptor_unpickled db d))))
  = [].
Proof. intros Hd. simpl. rewrite Hd. reflexivity. Qed.

(** Every write of [ModelTomSelectMixin.set_to_cache] is of that form. *)
Lemma Model_set_to_cache_inv (self : ModelTomSelectMixin) (w w' : World) :
  Model_set_to_cache self w = Ok w' ->
  exists qs url, get_queryset self = Ok qs /\ get_url (heavy self) = Ok url.
Proof.
  unfold Model_set_to_cache.
  destruct (get_queryset self) as [qs|]; simpl; [|discriminate].
  destruct (get_url (heavy self)) as [url|]; simpl; [|discriminate].
  eauto.
Qed.

(** C7.  Constructing a Heavy widget for which neither [data_view] nor
    [data_url] is set (the keyword argument, or else what the class
    declares, is [None] or empty) raises [ValueError] from the constructor
    itself; when either is set, the constructor returns the widget. *)
Theorem heavy_init_needs_data_view_or_data_url
    (klass : HeavyClass) (attrs0 choices0 : list (string * string))
    (kwargs : HeavyKwargs) (w : World) :
  let view := default (decl_data_view klass) (kw_data_view kwargs) in
  let url := default (decl_data_url klass) (kw_data_url kwargs) in
  let constructed :=
    fst (HeavyTomSelectMixin_init klass attrs0 choices0 kwargs w) in
  (opt_truthy view = false -> opt_truthy url = false ->
   constructed = Raise (ValueError MsgDataViewOrUrl)) /\
  (opt_truthy view = true \/ opt_truthy url = true ->
   exists self, constructed = Ok self /\
                data_view self = view /\ data_url self = url).
Proof.
  intros view url constructed. unfold constructed, HeavyTomSelectMixin_init.
  fold view url. unfold opt_or. split.
  - intros Hv Hu. rewrite Hv. rewrite Hu. reflexivity.
  - intros [Hv | Hu].
    + rewrite Hv. rewrite Hv. simpl. eauto.
    + destruct (opt_truthy view) eqn:Hv.
      * rewrite Hv. simpl. eauto.
      * rewrite Hu. simpl. eauto.
Qed.

(** C5.  A request whose identifier has no descriptor in the cache is
    answered by not-found, whatever its term, dependent values and page. *)
Theorem response_not_found_without_descriptor
    (row_value label_from_instance : Row -> string)
    (db : Model -> list Row) (request : SearchRequest) (w : World) :
  lookup_descriptor request w = None ->
  forall term0 deps page0,
    AutoResponseView_get row_value label_from_instance db
      {| identifier := identifier request;
         term := term0;
         dependent_values := deps;
         page := page0 |} w
    = NotFound.
Proof.
  intros Hnone term0 deps page0. unfold AutoResponseView_get.
  unfold lookup_descriptor in *. simpl. now rewrite Hnone.
Qed.

(** Presence of the descriptor is the only thing that decides between
    not-found and another answer. *)
Lemma response_not_found_iff
    (row_value label_from_instance : Row -> string)
    (db : Model -> list Row) (request : SearchRequest) (w : World) :
  AutoResponseView_get row_value label_from_instance db request w = NotFound
  <-> lookup_descriptor request w = None.
Proof.
  unfold AutoResponseView_get.
  destruct (lookup_descriptor request w) as [d|]; [|tauto].
  destruct (filter_queryset _ _ _ _ _); split; discriminate.
Qed.

(** An entry that the backend dropped is gone for the endpoint. *)
Lemma lookup_descriptor_expired (request : SearchRequest) (w : World) :
  lookup_descriptor request
    (cache_expire (TOM_SELECT_CACHE_PREFIX settings +:+ identifier request) w)
  = None.
Proof.
  unfold lookup_descriptor. now rewrite cache_get_expire.
Qed.

End Registration.

(** * The properties at work on the test application *)

Module Checks.

Import Testapp.

Example the_great_rows :
  exists result,
    filter_queryset title_widget request0 "the great" None [] = Ok result /\
    qs_rows test_db result = [the_great_gatsby].
Proof. eexists. split; reflexivity. Qed.

Example great_in_france :
  exists result,
    filter_queryset title_widget request0 "great" None [("country", "fr")]
    = Ok result /\
    qs_rows test_db result = [].
Proof. eexists. split; reflexivity. Qed.

Example init_primary_genre :
  HeavyTomSelectMixin_init PrimaryGenreDataUrlWidget [] [] no_kwargs fresh_world
  = (Ok primary_genre_widget, world_after_init).
Proof. reflexivity. Qed.

(** C1, the claim as it is worded, fails for a term of whitespace only:
    the term [" "] has no word, so "every word matches" holds of every row
    and the worded filter selects the album [abc]; [filter_queryset]
    selects only the rows in which the whole term occurs, and [abc] is not
    among them. *)
Lemma blank_term_is_matched_as_phrase_only :
  base_queryset title_widget None = Ok (manager_all Albums) /\
  " " <> "" /\
  In abc (query_rows test_db Albums (qs_query (manager_all Albums))) /\
  spec_search_matches abc (search_fields title_widget) " " = true /\
  exists result,
    filter_queryset title_widget request0 " " None [] = Ok result /\
    qs_rows test_db result = [the_great_gatsby; great_expectations] /\
    ~ In abc (qs_rows test_db result).
Proof.
  split; [reflexivity|]. split; [discriminate|].
  split; [right; left; reflexivity|]. split; [reflexivity|].
  eexists. split; [reflexivity|]. split; [reflexivity|].
  intros [H | [H | []]]; discriminate.
Qed.

Lemma filter_queryset_words_or_phrase_witness :
  base_queryset title_widget None = Ok (manager_all Albums) /\
  search_fields title_widget <> [] /\
  "the great" <> "" /\
  exists result,
    filter_queryset title_widget request0 "the great" None [] = Ok result /\
    forall db r,
      In r (qs_rows db result) <->
      In r (query_rows db Albums (qs_query (manager_all Albums))) /\
      (forallb (any_field_matches r title_fields) ["the"; "great"]
       || any_field_matches r title_fields "the great") = true.
Proof.
  split; [reflexivity|]. split; [discriminate|]. split; [discriminate|].
  apply (filter_queryset_words_or_phrase title_widget request0 "the great"
           None (manager_all Albums));
    [reflexivity | discriminate | discriminate].
Defined.

Lemma filter_queryset_distinct_iff_duplicating_lookup_witness :
  base_queryset title_widget None = Ok (manager_all Albums) /\
  search_fields title_widget <> [] /\
  exists select result,
    filter_queryset title_widget request0 "great" None
      [("genres__title__icontains", "rock")] = Ok result /\
    (duplicating_lookup_used Albums title_fields "great"
       [("genres__title__icontains", "rock")] ->
     result = qs_distinct (qs_filter (manager_all Albums) select) /\
     q_distinct (qs_query result) = true /\
     forall db, NoDup (qs_rows db result)) /\
    (~ duplicating_lookup_used Albums title_fields "great"
         [("genres__title__icontains", "rock")] ->
     result = qs_filter (manager_all Albums) select /\
     q_distinct (qs_query result) = false /\
     forall db,
       qs_rows db result = qs_rows db (qs_filter (manager_all Albums) select)).
Proof.
  split; [reflexivity|]. split; [discriminate|].
  apply (filter_queryset_distinct_iff_duplicating_lookup title_widget request0
           "great" None [("genres__title__icontains", "rock")]
           (manager_all Albums));
    [reflexivity | discriminate].
Defined.

Lemma filter_queryset_dependent_fields_and_witness :
  base_queryset title_widget None = Ok (manager_all Albums) /\
  search_fields title_widget <> [] /\
  exists result,
    filter_queryset title_widget request0 "great" None [("country", "fr")]
    = Ok result /\
    (forall db r,
       In r (qs_rows db result) <->
       In r (query_rows db Albums (qs_query (manager_all Albums))) /\
       search_matches r title_fields "great" = true /\
       forall kv, In kv [("country", "fr")] ->
                  lookup_matches r (fst kv) (snd kv) = true) /\
    (forall db,
       (forall r, In r (db Albums) ->
                  dependent_match r [("country", "fr")] = false) ->
       qs_rows db result = []).
Proof.
  split; [reflexivity|]. split; [discriminate|].
  apply (filter_queryset_dependent_fields_and title_widget request0 "great"
           None [("country", "fr")] (manager_all Albums));
    [reflexivity | discriminate].
Defined.

Lemma filter_queryset_without_search_fields_witness :
  search_fields foreign_key_widget = [] /\
  get_search_fields foreign_key_widget
  = Raise (NotImplementedError (MsgMissingSearchFields "ModelTomSelectWidget")) /\
  exists m,
    filter_queryset foreign_key_widget request0 "great" None []
    = Raise (NotImplementedError m).
Proof.
  split; [reflexivity|].
  apply (filter_queryset_without_search_fields foreign_key_widget request0
           "great" None []).
  reflexivity.
Defined.

(** C9, the claim as it is worded, fails: this widget has neither a model
    nor a query set, and [get_queryset] returns the query set of the
    choices of its field. *)
Lemma get_queryset_falls_back_on_choices :
  queryset foreign_key_widget = None /\
  model foreign_key_widget = None /\
  get_queryset foreign_key_widget = Ok (manager_all Albums).
Proof. repeat split. Qed.

Lemma get_queryset_unresolvable_witness :
  queryset bare_widget = None /\
  model bare_widget = None /\
  choices_queryset (choices (heavy bare_widget)) = None /\
  get_queryset bare_widget
  = Raise (NotImplementedError (MsgMissingQuerySet "ModelTomSelectWidget")).
Proof.
  split; [reflexivity|]. split; [reflexivity|]. split; [reflexivity|].
  apply (get_queryset_unresolvable bare_widget); reflexivity.
Defined.

Lemma filter_queryset_empty_term_witness :
  base_queryset title_widget None = Ok (manager_all Albums) /\
  search_fields title_widget <> [] /\
  filter_queryset title_widget request0 "" None []
  = Ok (qs_filter (manager_all Albums) Q_empty) /\
  q_distinct (qs_query (qs_filter (manager_all Albums) Q_empty)) = false /\
  forall db,
    qs_rows db (qs_filter (manager_all Albums) Q_empty)
    = query_rows db Albums (qs_query (manager_all Albums)).
Proof.
  split; [reflexivity|]. split; [discriminate|].
  apply (filter_queryset_empty_term title_widget request0 None
           (manager_all Albums));
    [reflexivity | discriminate].
Defined.

(** C4, the claim as it is worded, fails: the identifier of the widget is
    drawn by the constructor.  Two renders in a row draw nothing and write
    under one and the same key, the one of the constructor's identifier;
    nothing is stored under the identifier that [uuid4] would give next. *)
Lemma render_reuses_the_constructed_identifier :
  HeavyTomSelectMixin_init PrimaryGenreDataUrlWidget [] [] no_kwargs fresh_world
  = (Ok primary_genre_widget, world_after_init) /\
  Heavy_render primary_genre_widget genre_args world_after_init
  = Ok ("<select name=primary_genre>", world_rendered) /\
  Heavy_render primary_genre_widget genre_args world_rendered
  = Ok ("<select name=primary_genre>", world_rendered) /\
  drawn world_rendered = drawn world_after_init /\
  cache_get genre_key world_rendered = Some genre_entry /\
  uuid4 (drawn world_after_init) <> uuid primary_genre_widget /\
  cache_get ("tomselect_" +:+ uuid4 (drawn world_after_init)) world_rendered
  = None.
Proof.
  split; [reflexivity|]. split; [reflexivity|]. split.
  - unfold Heavy_render, render, Heavy_set_to_cache. simpl.
    unfold world_rendered. fold genre_key. fold genre_entry.
    now rewrite cache_set_twice.
  - split; [reflexivity|]. split; [apply cache_get_set|].
    split; [discriminate|].
    unfold world_rendered. rewrite cache_get_set_other; [reflexivity|].
    discriminate.
Qed.

Lemma heavy_render_registers_under_constructed_identifier_witness :
  HeavyTomSelectMixin_init PrimaryGenreDataUrlWidget [] [] no_kwargs fresh_world
  = (Ok primary_genre_widget, world_after_init) /\
  super_render primary_genre_widget genre_args
  = Ok "<select name=primary_genre>" /\
  get_url primary_genre_widget = Ok "/heavy_data_2/" /\
  picklable primary_genre_widget = true /\
  field_id primary_genre_widget = signing_dumps (uuid4 0) /\
  drawn world_after_init = 1 /\
  Heavy_render primary_genre_widget genre_args world_after_init
  = Ok ("<select name=primary_genre>", world_rendered) /\
  cache_get genre_key world_rendered = Some genre_entry /\
  drawn world_rendered = drawn world_after_init /\
  Heavy_render primary_genre_widget genre_args world_rendered
  = Ok ("<select name=primary_genre>", world_rendered).
Proof.
  split; [reflexivity|]. split; [reflexivity|]. split; [reflexivity|].
  split; [reflexivity|].
  exact (heavy_render_registers_under_constructed_identifier
           PrimaryGenreDataUrlWidget [] [] no_kwargs fresh_world
           world_after_init primary_genre_widget genre_args
           "<select name=primary_genre>" "/heavy_data_2/" world_after_init
           eq_refl eq_refl eq_refl eq_refl).
Defined.

Lemma model_set_to_cache_stores_query_definition_witness :
  get_queryset fetched_widget = Ok fetched_albums /\
  get_url (heavy fetched_widget) = Ok "/tomselect/fields/auto.json" /\
  qs_result_cache fetched_albums
  = Some [the_great_gatsby; abc; great_expectations] /\
  exists d,
    Model_set_to_cache fetched_widget fresh_world
    = Ok (cache_set genre_key (ModelEntry d) fresh_world) /\
    d_queryset d = (qs_none fetched_albums, qs_query fetched_albums) /\
    (forall db, qs_pickled_rows db (fst (d_queryset d)) = []) /\
    (forall db,
       d_queryset (descriptor_unpickled db d)
       = ({| qs_model := Albums;
             qs_query := qs_query (qs_none fetched_albums);
             qs_result_cache := Some [] |},
          qs_query fetched_albums)) /\
    (forall db select,
       qs_filter
         (qs_with_query (fst (d_queryset (descriptor_unpickled db d)))
            (snd (d_queryset (descriptor_unpickled db d))))
         select
       = qs_filter fetched_albums select) /\
    (forall db db',
       qs_rows db'
         (qs_filter
            (qs_with_query (fst (d_queryset (descriptor_unpickled db d)))
               (snd (d_queryset (descriptor_unpickled db d))))
            Q_empty)
       = query_rows db' Albums (qs_query fetched_albums)).
Proof.
  split; [reflexivity|]. split; [reflexivity|]. split; [reflexivity|].
  exact (model_set_to_cache_stores_query_definition fetched_widget
           fetched_albums "/tomselect/fields/auto.json" fresh_world
           eq_refl eq_refl).
Defined.

Lemma heavy_init_needs_data_view_or_data_url_witness :
  fst (HeavyTomSelectMixin_init HeavyTomSelectWidget [] [] no_kwargs fresh_world)
  = Raise (ValueError MsgDataViewOrUrl) /\
  exists self,
    fst (HeavyTomSelectMixin_init HeavyTomSelectWidget [] [] data_url_kwargs
           fresh_world) = Ok self /\
    data_view self = None /\
    data_url self = Some "/url/to/json/response".
Proof.
  split.
  - apply (heavy_init_needs_data_view_or_data_url HeavyTomSelectWidget [] []
             no_kwargs fresh_world); reflexivity.
  - apply (heavy_init_needs_data_view_or_data_url HeavyTomSelectWidget [] []
             data_url_kwargs fresh_world).
    right. reflexivity.
Defined.

Lemma response_not_found_without_descriptor_witness :
  lookup_descriptor request0 (cache_expire genre_key world_rendered) = None /\
  AutoResponseView_get pk title test_db
    {| identifier := uuid4 0;
       term := "the great";
       dependent_values := [];
       page := 1 |}
    (cache_expire genre_key world_rendered)
  = NotFound.
Proof.
  split; [vm_compute; reflexivity|].
  apply (@response_not_found_without_descriptor album_orm test_framework
           pk title test_db request0 (cache_expire genre_key world_rendered)).
  vm_compute; reflexivity.
Defined.

End Checks.

(** * Further properties of registration *)

Section RegistrationMore.
Context `{orm : ORM} {fw : @Framework orm}.

Lemma append_inj_r (p a b : string) : p +:+ a = p +:+ b -> a = b.
Proof.
  induction p as [|c p IH]; simpl; intros H; [exact H|].
  injection H as H. now apply IH.
Qed.

(** Different identifiers give different cache keys. *)
Lemma _get_cache_key_inj (a b : HeavyTomSelectMixin) :
  _get_cache_key a = _get_cache_key b -> uuid a = uuid b.
Proof. unfold _get_cache_key. apply append_inj_r. Qed.

Lemma Heavy_set_to_cache_other (self : HeavyTomSelectMixin) (w w' : World)
    (key : string) :
  key <> _get_cache_key self ->
  Heavy_set_to_cache self w = Ok w' ->
  cache_get key w' = cache_get key w /\ drawn w' = drawn w.
Proof.
  intros Hne. unfold Heavy_set_to_cache.
  destruct (get_url self); simpl; [|discriminate].
  destruct (picklable self); [|discriminate].
  intros H. injection H as <-. split; [|reflexivity].
  apply cache_get_set_other. congruence.
Qed.

Lemma Model_set_to_cache_other (self : ModelTomSelectMixin) (w w' : World)
    (key : string) :
  key <> _get_cache_key (heavy self) ->
  Model_set_to_cache self w = Ok w' ->
  cache_get key w' = cache_get key w /\ drawn w' = drawn w.
Proof.
  intros Hne. unfold Model_set_to_cache.
  destruct (get_queryset self); simpl; [|discriminate].
  destruct (get_url (heavy self)); simpl; [|discriminate].
  intros H. injection H as <-. split; [|reflexivity].
  apply cache_get_set_other. congruence.
Qed.

Lemma render_inv {W : Type} (base : W -> HeavyTomSelectMixin)
    (set_to_cache : W -> World -> result World) (self : W)
    (args : RenderArgs) (w w' : World) (output : string) :
  render base set_to_cache self args w = Ok (output, w') ->
  super_render (base self) args = Ok output /\ set_to_cache self w = Ok w'.
Proof.
  unfold render.
  destruct (super_render (base self) args); simpl; [|discriminate].
  destruct (set_to_cache self w); simpl; [|discriminate].
  intros H. now injection H as -> ->.
Qed.

(** X1.  A widget that [HeavyTomSelectMixin.__init__] returned always has
    something for [get_url] to work with: either a non-empty [data_url],
    which [get_url] returns without resolving anything, or else a non-empty
    [data_view], which [get_url] hands to [reverse]; [reverse(None)] is
    never called. *)
Theorem constructed_widget_get_url
    (klass : HeavyClass) (attrs0 choices0 : list (string * string))
    (kwargs : HeavyKwargs) (w0 w1 : World) (self : HeavyTomSelectMixin) :
  HeavyTomSelectMixin_init klass attrs0 choices0 kwargs w0 = (Ok self, w1) ->
  (exists url, data_url self = Some url /\ url <> "" /\ get_url self = Ok url)
  \/ (opt_truthy (data_url self) = false /\
      exists name, data_view self = Some name /\ name <> "" /\
                   get_url self = reverse (Some name)).
Proof.
  unfold HeavyTomSelectMixin_init.
  set (view := default (decl_data_view klass) (kw_data_view kwargs)).
  set (url := default (decl_data_url klass) (kw_data_url kwargs)).
  destruct (negb (opt_truthy (opt_or view url))) eqn:Hcheck; [discriminate|].
  intros H. injection H as <- _. unfold get_url. simpl.
  apply negb_false_iff in Hcheck. unfold opt_or in Hcheck.
  destruct url as [[|c u]|]; simpl in *.
  - right. split; [reflexivity|].
    destruct view as [[|c v]|]; simpl in *; try discriminate.
    eexists. repeat split. discriminate.
  - left. eexists. repeat split. discriminate.
  - right. split; [reflexivity|].
    destruct view as [[|c v]|]; simpl in *; try discriminate.
    eexists. repeat split. discriminate.
Qed.

(** X2.  The [data_view] of a Model widget is the keyword argument when
    one is given and the shared endpoint otherwise; what the class declares
    as [data_view] is never used.  The constructor raises only when
    [data_view] is given as [None] or empty and there is no [data_url]. *)
Theorem model_init_data_view
    (klass : ModelWidgetClass) (attrs0 choices0 : list (string * string))
    (kwargs : ModelKwargs) (w : World) :
  let view :=
    match kw_data_view (kw_heavy kwargs) with
    | Some given => given
    | None => Some "django_tom_select:auto-json"
    end in
  let url :=
    default (decl_data_url (decl_heavy klass)) (kw_data_url (kw_heavy kwargs)) in
  let constructed :=
    fst (ModelTomSelectMixin_init klass attrs0 choices0 kwargs w) in
  (opt_truthy view = false -> opt_truthy url = false ->
   constructed = Raise (ValueError MsgDataViewOrUrl)) /\
  (opt_truthy view = true \/ opt_truthy url = true ->
   exists self,
     constructed = Ok self /\
     data_view (heavy self) = view /\
     data_url (heavy self) = url /\
     search_fields self
     = default (decl_search_fields klass) (kw_search_fields kwargs) /\
     max_results self
     = default (decl_max_results klass) (kw_max_results kwargs)).
Proof.
  intros view url constructed.
  unfold constructed, ModelTomSelectMixin_init, HeavyTomSelectMixin_init.
  simpl.
  assert (Hview : default (decl_data_view (decl_heavy klass))
                    match kw_data_view (kw_heavy kwargs) with
                    | Some given => Some given
                    | None => Some (Some "django_tom_select:auto-json")
                    end = view).
  { unfold view. now destruct (kw_data_view (kw_heavy kwargs)). }
  rewrite Hview. fold url. unfold opt_or.
  destruct (opt_truthy view) eqn:Hv; simpl.
  - rewrite Hv. simpl. split; [discriminate|].
    intros _. eexists. repeat split.
  - destruct (opt_truthy url) eqn:Hu; simpl.
    + split; [discriminate|]. intros _. eexists. repeat split.
    + split; [reflexivity|]. intros [H | H]; discriminate.
Qed.

(** X3.  Rendering a widget leaves the cache entry of every widget with
    another identifier as it was, whether the rendered widget is a Heavy or
    a Model widget. *)
Theorem render_keeps_other_entries
    (a : HeavyTomSelectMixin) (m : ModelTomSelectMixin) (args : RenderArgs)
    (w : World) :
  uuid a <> uuid (heavy m) ->
  (forall output w',
     Heavy_render a args w = Ok (output, w') ->
     cache_get (_get_cache_key (heavy m)) w'
     = cache_get (_get_cache_key (heavy m)) w) /\
  (forall output w',
     Model_render m args w = Ok (output, w') ->
     cache_get (_get_cache_key a) w' = cache_get (_get_cache_key a) w).
Proof.
  intros Hne. split; intros output w' Hrender.
  - apply render_inv in Hrender as [_ Hset].
    eapply Heavy_set_to_cache_other; [|exact Hset].
    intros Hkey. apply _get_cache_key_inj in Hkey. congruence.
  - apply render_inv in Hrender as [_ Hset].
    eapply Model_set_to_cache_other; [|exact Hset].
    intros Hkey. apply _get_cache_key_inj in Hkey. congruence.
Qed.

Lemma Heavy_set_to_cache_entry (self : HeavyTomSelectMixin) (w w' : World) :
  Heavy_set_to_cache self w = Ok w' ->
  exists url, get_url self = Ok url /\
              w' = cache_set (_get_cache_key self) (HeavyEntry self url) w.
Proof.
  unfold Heavy_set_to_cache.
  destruct (get_url self) as [url|]; simpl; [|discriminate].
  destruct (picklable self); [|discriminate].
  intros H. injection H as <-. eauto.
Qed.

(** X4.  Two Heavy widgets constructed one after the other and then both
    rendered are both registered, each under its own key, as long as
    [uuid4] does not give the same value twice in a row: neither render
    overwrites the entry of the other. *)
Theorem two_widgets_are_both_registered
    (klass1 klass2 : HeavyClass) (attrs1 attrs2 : list (string * string))
    (choices1 choices2 : list (string * string)) (kwargs1 kwargs2 : HeavyKwargs)
    (a b : HeavyTomSelectMixin) (args1 args2 : RenderArgs)
    (out1 out2 : string) (w0 w1 w2 w3 w4 : World) :
  uuid4 (drawn w0) <> uuid4 (S (drawn w0)) ->
  HeavyTomSelectMixin_init klass1 attrs1 choices1 kwargs1 w0 = (Ok a, w1) ->
  HeavyTomSelectMixin_init klass2 attrs2 choices2 kwargs2 w1 = (Ok b, w2) ->
  Heavy_render a args1 w2 = Ok (out1, w3) ->
  Heavy_render b args2 w3 = Ok (out2, w4) ->
  _get_cache_key a <> _get_cache_key b /\
  exists url1 url2,
    cache_get (_get_cache_key a) w4 = Some (HeavyEntry a url1) /\
    cache_get (_get_cache_key b) w4 = Some (HeavyEntry b url2).
Proof.
  intros Hfresh Ha Hb Hr1 Hr2.
  destruct (HeavyTomSelectMixin_init_identifier _ _ _ _ _ _ _ Ha)
    as (Hua & _ & Hd1 & _).
  destruct (HeavyTomSelectMixin_init_identifier _ _ _ _ _ _ _ Hb)
    as (Hub & _ & _ & _).
  rewrite Hd1 in Hub.
  assert (Hkeys : _get_cache_key a <> _get_cache_key b).
  { intros Hkey. apply _get_cache_key_inj in Hkey. congruence. }
  split; [exact Hkeys|].
  apply render_inv in Hr1 as [_ Hs1]. apply render_inv in Hr2 as [_ Hs2].
  destruct (Heavy_set_to_cache_entry _ _ _ Hs1) as (url1 & _ & Hw3).
  destruct (Heavy_set_to_cache_entry _ _ _ Hs2) as (url2 & _ & Hw4).
  exists url1, url2. split.
  - destruct (Heavy_set_to_cache_other b w3 w4 (_get_cache_key a) Hkeys Hs2)
      as [Hsame _].
    rewrite Hsame, Hw3. apply cache_get_set.
  - rewrite Hw4. apply cache_get_set.
Qed.

(** X6.  A Model widget with no source for a query set is constructed
    without complaint; the [NotImplementedError] for the missing query set
    comes when the widget is rendered, from [set_to_cache]. *)
Theorem model_render_without_queryset
    (self : ModelTomSelectMixin) (args : RenderArgs) (output : string)
    (w : World) :
  queryset self = None ->
  model self = None ->
  choices_queryset (choices (heavy self)) = None ->
  super_render (heavy self) args = Ok output ->
  Model_render self args w
  = Raise (NotImplementedError (MsgMissingQuerySet (cls (heavy self)))).
Proof.
  intros Hq Hm Hc Hout.
  unfold Model_render, render, Model_set_to_cache, get_queryset.
  rewrite Hout, Hq, Hc, Hm. reflexivity.
Qed.

(** X7.  Missing search fields do not stop a Model widget from being
    rendered and registered: the descriptor is written with an empty list
    of search fields, and the error only comes when the widget is asked to
    filter. *)
Theorem model_render_without_search_fields
    (self : ModelTomSelectMixin) (args : RenderArgs) (output url : string)
    (qs : QuerySet) (w : World) :
  search_fields self = [] ->
  super_render (heavy self) args = Ok output ->
  get_queryset self = Ok qs ->
  get_url (heavy self) = Ok url ->
  exists d w',
    Model_render self args w = Ok (output, w') /\
    cache_get (_get_cache_key (heavy self)) w' = Some (ModelEntry d) /\
    d_search_fields d = [] /\
    forall request term0 deps,
      filter_queryset self request term0 None deps
      = Raise (NotImplementedError (MsgMissingSearchFields (cls (heavy self)))).
Proof.
  intros Hsf Hout Hqs Hurl. eexists. eexists. split.
  - unfold Model_render, render, Model_set_to_cache.
    rewrite Hout. simpl. rewrite Hqs. simpl. rewrite Hurl. reflexivity.
  - split; [apply cache_get_set|]. split; [exact Hsf|].
    intros request term0 deps. unfold filter_queryset, get_search_fields.
    rewrite Hqs, Hsf. reflexivity.
Qed.

(** X8.  The round trip through the cache changes nothing for the search:
    after [set_to_cache], the entry under the widget's key holds the
    widget's search fields, page size, URL and dependent fields, and
    filtering the query set put together again from the two stored halves,
    by any widget with the stored search fields and class, gives the very
    result of filtering by the widget itself. *)
Theorem model_descriptor_round_trip
    (self : ModelTomSelectMixin) (w w' : World) :
  Model_set_to_cache self w = Ok w' ->
  exists d,
    cache_get (_get_cache_key (heavy self)) w' = Some (ModelEntry d) /\
    d_search_fields d = search_fields self /\
    d_max_results d = max_results self /\
    get_url (heavy self) = Ok (d_url d) /\
    d_dependent_fields d = dependent_fields (heavy self) /\
    forall other request term0 deps,
      search_fields other = d_search_fields d ->
      cls (heavy other) = d_cls d ->
      filter_queryset other request term0
        (Some (qs_with_query (fst (d_queryset d)) (snd (d_queryset d)))) deps
      = filter_queryset self request term0 None deps.
Proof.
  unfold Model_set_to_cache.
  destruct (get_queryset self) as [qs|] eqn:Hqs; simpl; [|discriminate].
  destruct (get_url (heavy self)) as [url|] eqn:Hurl; simpl; [|discriminate].
  intros H. injection H as <-. eexists. split; [apply cache_get_set|].
  simpl. repeat split.
  intros other request term0 deps Hsf Hcls.
  unfold filter_queryset, get_search_fields. rewrite Hqs, Hsf, Hcls. simpl.
  destruct (seq_truthy (search_fields self)); simpl; [|reflexivity].
  destruct (search_select (qs_model qs) (search_fields self) term0)
    as [[select use_distinct]|]; simpl; [|reflexivity].
  reflexivity.
Qed.

End RegistrationMore.

(** * Further properties of the search filter *)

Section SearchMore.
Context `{orm : ORM} {fw : @Framework orm}.

Lemma existsb_Permutation {A : Type} (f : A -> bool) (l l' : list A) :
  Permutation l l' -> existsb f l = existsb f l'.
Proof.
  induction 1 as [|x l l' _ IH|x y l|l l' l'' _ IH1 _ IH2]; simpl.
  - reflexivity.
  - now rewrite IH.
  - now destruct (f x), (f y).
  - now rewrite IH1.
Qed.

Lemma forallb_pointwise {A : Type} (f g : A -> bool) (l : list A) :
  (forall x, f x = g x) -> forallb f l = forallb g l.
Proof.
  intros Hfg. induction l as [|x l IH]; simpl; [reflexivity|].
  now rewrite Hfg, IH.
Qed.

Lemma search_matches_Permutation (r : Row) (fields fields' : list string)
    (term0 : string) :
  Permutation fields fields' ->
  search_matches r fields term0 = search_matches r fields' term0.
Proof.
  intros Hperm. unfold search_matches, spec_search_matches.
  assert (Hany : forall word, any_field_matches r fields word
                              = any_field_matches r fields' word).
  { intros word. unfold any_field_matches. now apply existsb_Permutation. }
  rewrite (forallb_pointwise _ _ (split term0) Hany), (Hany term0).
  reflexivity.
Qed.

(** Two conditions that hold of the same rows give the same rows. *)
Lemma qs_rows_filtered_ext (db : Model -> list Row) (qs : QuerySet)
    (s1 s2 : Q) (with_distinct : bool) :
  (forall r, Q_holds r s1 = Q_holds r s2) ->
  qs_rows db (if with_distinct
              then qs_distinct (qs_filter qs s1) else qs_filter qs s1)
  = qs_rows db (if with_distinct
                then qs_distinct (qs_filter qs s2) else qs_filter qs s2).
Proof.
  intros Hext.
  assert (Hfilter : List.filter
                      (fun r => forallb (Q_holds r) (q_where (qs_query qs) ++ [s1]))
                      (db (qs_model qs))
                    = List.filter
                        (fun r => forallb (Q_holds r) (q_where (qs_query qs) ++ [s2]))
                        (db (qs_model qs))).
  { apply filter_ext. intros r. rewrite !forallb_app. simpl. now rewrite Hext. }
  destruct with_distinct; unfold qs_rows, query_rows; simpl;
    destruct (q_empty (qs_query qs)); try reflexivity; now rewrite Hfilter.
Qed.

(** X9.  The order of the search fields does not matter: two widgets
    whose search fields are the same up to order select the same rows, in
    the same order and with the same duplicates, from the same query
    set. *)
Theorem filter_queryset_search_fields_order
    (a b : ModelTomSelectMixin) (request : SearchRequest) (term0 : string)
    (qs : QuerySet) (deps : list (string * string)) :
  search_fields a <> [] ->
  Permutation (search_fields a) (search_fields b) ->
  exists result_a result_b,
    filter_queryset a request term0 (Some qs) deps = Ok result_a /\
    filter_queryset b request term0 (Some qs) deps = Ok result_b /\
    forall db, qs_rows db result_a = qs_rows db result_b.
Proof.
  intros Hne Hperm.
  assert (Hne' : search_fields b <> []).
  { intros Hnil. rewrite Hnil in Hperm.
    apply Permutation_sym, Permutation_nil in Hperm. contradiction. }
  destruct (filter_queryset_spec a request term0 (Some qs) deps qs eq_refl Hne)
    as (sa & Hra & _ & Hha).
  destruct (filter_queryset_spec b request term0 (Some qs) deps qs eq_refl Hne')
    as (sb & Hrb & _ & Hhb).
  assert (Hnd : needs_distinct (qs_model qs) (search_fields a) term0 deps
                = needs_distinct (qs_model qs) (search_fields b) term0 deps).
  { unfold needs_distinct.
    now rewrite (existsb_Permutation _ _ _ Hperm). }
  eexists. eexists. split; [exact Hra|]. split; [exact Hrb|].
  intros db. rewrite <- Hnd. apply qs_rows_filtered_ext.
  intros r. rewrite Hha, Hhb.
  now rewrite (search_matches_Permutation r _ _ term0 Hperm).
Qed.

(** X10.  More dependent-field values can only narrow the result: every
    row selected with the values [deps ++ more] is selected with [deps]
    alone. *)
Theorem filter_queryset_more_dependent_fields
    (self : ModelTomSelectMixin) (request : SearchRequest) (term0 : string)
    (qs : QuerySet) (deps more : list (string * string)) :
  search_fields self <> [] ->
  exists narrow wide,
    filter_queryset self request term0 (Some qs) (deps ++ more) = Ok narrow /\
    filter_queryset self request term0 (Some qs) deps = Ok wide /\
    forall db r, In r (qs_rows db narrow) -> In r (qs_rows db wide).
Proof.
  intros Hne.
  destruct (filter_queryset_spec self request term0 (Some qs) (deps ++ more) qs
              eq_refl Hne) as (sn & Hn & _ & Hhn).
  destruct (filter_queryset_spec self request term0 (Some qs) deps qs
              eq_refl Hne) as (sw & Hw & _ & Hhw).
  eexists. eexists. split; [exact Hn|]. split; [exact Hw|].
  intros db r. rewrite !In_filtered_rows, Hhn, Hhw.
  unfold dependent_match. rewrite forallb_app, !andb_true_iff. tauto.
Qed.

(** X11.  Filtering is idempotent: filtering the result once more with
    the same term and the same dependent-field values gives the same
    rows. *)
Theorem filter_queryset_idempotent
    (self : ModelTomSelectMixin) (request : SearchRequest) (term0 : string)
    (qs : QuerySet) (deps : list (string * string)) :
  search_fields self <> [] ->
  exists once twice,
    filter_queryset self request term0 (Some qs) deps = Ok once /\
    filter_queryset self request term0 (Some once) deps = Ok twice /\
    forall db, qs_rows db twice = qs_rows db once.
Proof.
  intros Hne.
  destruct (filter_queryset_spec self request term0 (Some qs) deps qs
              eq_refl Hne) as (s1 & H1 & _ & Hh1).
  set (nd := needs_distinct (qs_model qs) (search_fields self) term0 deps) in *.
  set (once := if nd then qs_distinct (qs_filter qs s1) else qs_filter qs s1) in *.
  destruct (filter_queryset_spec self request term0 (Some once) deps once
              eq_refl Hne) as (s2 & H2 & _ & Hh2).
  assert (Hmodel : qs_model once = qs_model qs) by (unfold once; now destruct nd).
  rewrite Hmodel in H2. fold nd in H2.
  exists once. eexists. split; [exact H1|]. split; [exact H2|].
  intros db.
  assert (Hfilter : List.filter
            (fun r => forallb (Q_holds r)
                        ((q_where (qs_query qs) ++ [s1]) ++ [s2]))
            (db (qs_model qs))
          = List.filter
              (fun r => forallb (Q_holds r) (q_where (qs_query qs) ++ [s1]))
              (db (qs_model qs))).
  { apply filter_ext. intros r. rewrite !forallb_app. simpl.
    rewrite Hh2, Hh1, !andb_true_r.
    destruct (forallb (Q_holds r) (q_where (qs_query qs)));
      destruct (search_matches r (search_fields self) term0 && dependent_match r deps);
      reflexivity. }
  unfold once. destruct nd; unfold qs_rows, query_rows; simpl;
    destruct (q_empty (qs_query qs)); try reflexivity; now rewrite Hfilter.
Qed.

Lemma append_empty_r (s : string) : s +:+ "" = s.
Proof.
  induction s as [|c s IH]; [reflexivity|].
  change (String c (s +:+ "") = String c s). now f_equal.
Qed.

Lemma append_char_shift (word : string) (c : ascii) (rest : string) :
  (word +:+ String c "") +:+ rest = word +:+ String c rest.
Proof.
  induction word as [|a word IH]; [reflexivity|].
  change (String a ((word +:+ String c "") +:+ rest)
          = String a (word +:+ String c rest)).
  now f_equal.
Qed.

(** A string without whitespace is one word. *)
Lemma split_from_no_whitespace (s : string) : forall word,
  no_whitespace s = true ->
  split_from word s = if str_truthy (word +:+ s) then [word +:+ s] else [].
Proof.
  induction s as [|c rest IH]; intros word Hs.
  - rewrite append_empty_r. reflexivity.
  - cbn [no_whitespace] in Hs. apply andb_true_iff in Hs as [Hc Hrest].
    apply negb_true_iff in Hc. cbn [split_from]. rewrite Hc.
    rewrite (IH _ Hrest), append_char_shift. reflexivity.
Qed.

(** X12.  For a term of one word (non-empty, without whitespace) the
    whole-term clause adds nothing: a row is selected iff the term matches
    some search field. *)
Theorem filter_queryset_single_word
    (self : ModelTomSelectMixin) (request : SearchRequest) (term0 : string)
    (qs : QuerySet) :
  search_fields self <> [] ->
  term0 <> "" ->
  no_whitespace term0 = true ->
  exists result,
    filter_queryset self request term0 (Some qs) [] = Ok result /\
    forall db r,
      In r (qs_rows db result) <->
      In r (query_rows db (qs_model qs) (qs_query qs)) /\
      any_field_matches r (search_fields self) term0 = true.
Proof.
  intros Hne Hterm Hword.
  destruct (filter_queryset_spec self request term0 (Some qs) [] qs eq_refl Hne)
    as (select & Hres & _ & Hholds).
  eexists. split; [exact Hres|].
  intros db r. rewrite In_filtered_rows, Hholds.
  unfold search_matches, spec_search_matches, dependent_match, split.
  rewrite (split_from_no_whitespace term0 "" Hword). simpl.
  destruct term0 as [|c rest]; [congruence|]. simpl.
  rewrite !andb_true_r.
  change ("" +:+ String c rest) with (String c rest).
  now rewrite orb_diag.
Qed.

(** X13.  [filter_queryset] only narrows the query set it is given, and
    does not need the widget to have a query set of its own: the result is
    for the same model, keeps every condition, DISTINCT and emptiness of
    the given query set, adds exactly one condition, is not evaluated, and
    every row of it is a row of the given query. *)
Theorem filter_queryset_only_narrows
    (self : ModelTomSelectMixin) (request : SearchRequest) (term0 : string)
    (qs : QuerySet) (deps : list (string * string)) :
  search_fields self <> [] ->
  exists result select,
    filter_queryset self request term0 (Some qs) deps = Ok result /\
    qs_model result = qs_model qs /\
    q_where (qs_query result) = (q_where (qs_query qs) ++ [select])%list /\
    q_empty (qs_query result) = q_empty (qs_query qs) /\
    (q_distinct (qs_query qs) = true -> q_distinct (qs_query result) = true) /\
    qs_result_cache result = None /\
    forall db r,
      In r (qs_rows db result) ->
      In r (query_rows db (qs_model qs) (qs_query qs)).
Proof.
  intros Hne.
  destruct (filter_queryset_spec self request term0 (Some qs) deps qs eq_refl Hne)
    as (select & Hres & _ & _).
  eexists. exists select. split; [exact Hres|].
  split; [now destruct (needs_distinct _ _ _ _)|].
  split; [now destruct (needs_distinct _ _ _ _)|].
  split; [now destruct (needs_distinct _ _ _ _)|].
  split; [now destruct (needs_distinct _ _ _ _)|].
  split; [now destruct (needs_distinct _ _ _ _)|].
  intros db r Hin. now apply In_filtered_rows in Hin as [Hin _].
Qed.

End SearchMore.

(** * Properties of the rendered attributes and the package *)

Section RenderingMore.
Context `{orm : ORM} {fw : @Framework orm}.

Lemma lookup_union_first (m1 m2 : gmap string string) (k : string) :
  (m1 ∪ m2) !! k = match m1 !! k with Some v => Some v | None => m2 !! k end.
Proof.
  destruct (m1 !! k) as [v|] eqn:H1.
  - now apply lookup_union_Some_l.
  - now apply lookup_union_r.
Qed.

(** The attributes that [TomSelectMixin.build_attrs] gets back from
    [Widget.build_attrs], key by key. *)
Lemma TomSelectWidget_attrs_lookup (base_attrs : gmap string string)
    (extra_attrs : option (gmap string string)) (k : string) :
  TomSelectWidget_build_attrs base_attrs extra_attrs !! k
  = if String.eqb k "class"
    then Some (match Widget_build_attrs base_attrs extra_attrs !! "class" with
               | Some given => given +:+ " " +:+ css_class_name
               | None => css_class_name
               end)
    else match Widget_build_attrs base_attrs extra_attrs !! k with
         | Some v => Some v
         | None => if String.eqb k "data-create" then Some "false" else None
         end.
Proof.
  unfold TomSelectWidget_build_attrs, TomSelectMixin_build_attrs.
  set (attrs0 := Widget_build_attrs (base_attrs ∪ {["data-create" := "false"]})
                   extra_attrs).
  assert (Hlookup : forall j, attrs0 !! j
            = match Widget_build_attrs base_attrs extra_attrs !! j with
              | Some v => Some v
              | None => if String.eqb j "data-create" then Some "false" else None
              end).
  { intros j. unfold attrs0, Widget_build_attrs. rewrite !lookup_union_first.
    destruct (default ∅ extra_attrs !! j); [reflexivity|].
    destruct (base_attrs !! j); [reflexivity|].
    destruct (String.eqb_spec j "data-create") as [->|Hne].
    - apply lookup_singleton_eq.
    - apply lookup_singleton_ne. congruence. }
  destruct (String.eqb_spec k "class") as [->|Hne].
  - rewrite (Hlookup "class"). simpl.
    destruct (Widget_build_attrs base_attrs extra_attrs !! "class");
      apply lookup_insert_eq.
  - destruct (attrs0 !! "class");
      (rewrite lookup_insert_ne; [apply Hlookup | congruence]).
Qed.

(** X14.  The attributes of a light widget: the class attribute always
    ends with [django-tom-select], after the class the caller gave, if any;
    [data-create] is ["false"] unless the caller gave it; every other
    attribute is the caller's, an extra attribute winning over a base
    one. *)
Theorem tom_select_build_attrs
    (base_attrs : gmap string string)
    (extra_attrs : option (gmap string string)) :
  let given := Widget_build_attrs base_attrs extra_attrs in
  let attrs0 := TomSelectWidget_build_attrs base_attrs extra_attrs in
  attrs0 !! "class"
  = Some (match given !! "class" with
          | Some c => c +:+ " django-tom-select"
          | None => "django-tom-select"
          end) /\
  attrs0 !! "data-create" = Some (default "false" (given !! "data-create")) /\
  (forall k, k <> "class" -> k <> "data-create" -> attrs0 !! k = given !! k) /\
  (forall k, given !! k
             = match default ∅ extra_attrs !! k with
               | Some v => Some v
               | None => base_attrs !! k
               end).
Proof.
  intros given attrs0. unfold attrs0.
  split; [|split; [|split]].
  - rewrite TomSelectWidget_attrs_lookup. simpl. fold given.
    now destruct (given !! "class").
  - rewrite TomSelectWidget_attrs_lookup. simpl. fold given.
    now destruct (given !! "data-create").
  - intros k Hc Hd. rewrite TomSelectWidget_attrs_lookup. fold given.
    destruct (String.eqb_spec k "class"); [contradiction|].
    destruct (String.eqb_spec k "data-create"); [contradiction|].
    now destruct (given !! k).
  - intros k. unfold given, Widget_build_attrs. apply lookup_union_first.
Qed.

Lemma Widget_build_attrs_defaults (base_attrs defaults : gmap string string)
    (extra_attrs : option (gmap string string)) (k : string) :
  Widget_build_attrs (base_attrs ∪ defaults) extra_attrs !! k
  = match Widget_build_attrs base_attrs extra_attrs !! k with
    | Some v => Some v
    | None => defaults !! k
    end.
Proof.
  unfold Widget_build_attrs. rewrite !lookup_union_first.
  destruct (default ∅ extra_attrs !! k); [reflexivity|].
  now destruct (base_attrs !! k).
Qed.

Lemma heavy_default_attrs_url (self : HeavyTomSelectMixin) (url : string) :
  heavy_default_attrs self url !! "data-ajax--url" = Some url.
Proof.
  unfold heavy_default_attrs.
  destruct (seq_truthy (dependent_fields self)); now simplify_map_eq.
Qed.

Lemma heavy_default_attrs_class (self : HeavyTomSelectMixin) (url : string) :
  heavy_default_attrs self url !! "class" = None.
Proof.
  unfold heavy_default_attrs.
  destruct (seq_truthy (dependent_fields self)); now simplify_map_eq.
Qed.

Lemma heavy_default_attrs_delimiter (self : HeavyTomSelectMixin) (url : string) :
  heavy_default_attrs self url !! "data-delimiter" = None.
Proof.
  unfold heavy_default_attrs.
  destruct (seq_truthy (dependent_fields self)); now simplify_map_eq.
Qed.

Lemma heavy_default_attrs_dependent (self : HeavyTomSelectMixin) (url : string) :
  heavy_default_attrs self url !! "data-tom-select-dependent-fields"
  = if seq_truthy (dependent_fields self)
    then Some (String.concat " " (map fst (dependent_fields self)))
    else None.
Proof.
  unfold heavy_default_attrs.
  destruct (seq_truthy (dependent_fields self)); now simplify_map_eq.
Qed.

(** [HeavyTomSelectMixin.build_attrs] once [get_url] has answered and the
    attributes of [super()] have a class. *)
Lemma HeavyTomSelectMixin_build_attrs_built
    (super_build_attrs : gmap string string -> option (gmap string string)
                         -> gmap string string)
    (self : HeavyTomSelectMixin) (base_attrs : gmap string string)
    (extra_attrs : option (gmap string string)) (url given : string) :
  get_url self = Ok url ->
  super_build_attrs (base_attrs ∪ heavy_default_attrs self url) extra_attrs
    !! "class" = Some given ->
  HeavyTomSelectMixin_build_attrs super_build_attrs self base_attrs extra_attrs
  = Built (<["class" := given +:+ " django-tom-select-heavy"]>
             (<["data-field_id" := field_id self]>
                (super_build_attrs (base_attrs ∪ heavy_default_attrs self url)
                   extra_attrs))).
Proof.
  intros Hurl Hclass. unfold HeavyTomSelectMixin_build_attrs.
  rewrite Hurl. fold (heavy_default_attrs self url).
  rewrite lookup_insert_ne by discriminate. now rewrite Hclass.
Qed.

(** X15.  The attributes of a Heavy widget.  When [get_url] raises, so
    does [build_attrs].  Otherwise the attributes are built, and never fail
    on a missing class: [data-field_id] is the signed identifier of the
    widget whatever the caller passed for it; the class ends with
    [django-tom-select django-tom-select-heavy]; [data-ajax--url] is the
    URL of the widget unless the caller gave one; and the dependent fields
    are announced, by their form names joined with spaces, when there are
    any. *)
Theorem heavy_build_attrs
    (self : HeavyTomSelectMixin) (base_attrs : gmap string string)
    (extra_attrs : option (gmap string string)) :
  let given := Widget_build_attrs base_attrs extra_attrs in
  (forall e, get_url self = Raise e ->
     HeavyTomSelectWidget_build_attrs self base_attrs extra_attrs
     = BuildRaise e) /\
  (forall url, get_url self = Ok url ->
     exists attrs0,
       HeavyTomSelectWidget_build_attrs self base_attrs extra_attrs
       = Built attrs0 /\
       attrs0 !! "data-field_id" = Some (field_id self) /\
       attrs0 !! "class"
       = Some (match given !! "class" with
               | Some c => c +:+ " django-tom-select"
               | None => "django-tom-select"
               end +:+ " django-tom-select-heavy") /\
       attrs0 !! "data-ajax--url"
       = Some (default url (given !! "data-ajax--url")) /\
       attrs0 !! "data-tom-select-dependent-fields"
       = match given !! "data-tom-select-dependent-fields" with
         | Some v => Some v
         | None =>
             if seq_truthy (dependent_fields self)
             then Some (String.concat " " (map fst (dependent_fields self)))
             else None
         end).
Proof.
  intros given. split.
  - intros e He.
    unfold HeavyTomSelectWidget_build_attrs, HeavyTomSelectMixin_build_attrs.
    now rewrite He.
  - intros url Hurl. unfold HeavyTomSelectWidget_build_attrs.
    pose proof (TomSelectWidget_attrs_lookup
                  (base_attrs ∪ heavy_default_attrs self url) extra_attrs)
      as Hlookup.
    pose proof (Hlookup "class") as Hclass. simpl in Hclass.
    rewrite Widget_build_attrs_defaults, heavy_default_attrs_class in Hclass.
    fold given in Hclass.
    erewrite HeavyTomSelectMixin_build_attrs_built; [|exact Hurl|exact Hclass].
    eexists. split; [reflexivity|]. split; [|split; [|split]].
    + rewrite lookup_insert_ne by discriminate. apply lookup_insert_eq.
    + rewrite lookup_insert_eq. now destruct (given !! "class").
    + rewrite !lookup_insert_ne by discriminate.
      rewrite Hlookup. simpl.
      rewrite Widget_build_attrs_defaults, heavy_default_attrs_url.
      fold given. now destruct (given !! "data-ajax--url").
    + rewrite !lookup_insert_ne by discriminate.
      rewrite Hlookup. simpl.
      rewrite Widget_build_attrs_defaults, heavy_default_attrs_dependent.
      fold given.
      destruct (given !! "data-tom-select-dependent-fields"); [reflexivity|].
      now destruct (seq_truthy (dependent_fields self)).
Qed.

Lemma TomSelectTagWidget_attrs_lookup (base_attrs : gmap string string)
    (extra_attrs : option (gmap string string)) (k : string) :
  TomSelectTagWidget_build_attrs base_attrs extra_attrs !! k
  = if String.eqb k "data-delimiter"
    then Some (default ","
                 (Widget_build_attrs base_attrs extra_attrs !! "data-delimiter"))
    else TomSelectWidget_build_attrs base_attrs extra_attrs !! k.
Proof.
  unfold TomSelectTagWidget_build_attrs, TomSelectTagMixin_build_attrs.
  rewrite !TomSelectWidget_attrs_lookup, !Widget_build_attrs_defaults.
  destruct (String.eqb_spec k "data-delimiter") as [->|Hne]; simpl.
  - rewrite lookup_singleton_eq.
    now destruct (Widget_build_attrs base_attrs extra_attrs !! "data-delimiter").
  - rewrite !lookup_singleton_ne by congruence.
    destruct (String.eqb k "class").
    + now destruct (Widget_build_attrs base_attrs extra_attrs !! "class").
    + now destruct (Widget_build_attrs base_attrs extra_attrs !! k).
Qed.

(** X16.  A tag widget differs from the plain widget in one attribute
    only: [data-delimiter] is a comma unless the caller gave it; this holds
    for the light tag widget and for the Heavy tag widget against the Heavy
    widget. *)
Theorem tag_build_attrs
    (self : HeavyTomSelectMixin) (base_attrs : gmap string string)
    (extra_attrs : option (gmap string string)) :
  let given := Widget_build_attrs base_attrs extra_attrs in
  TomSelectTagWidget_build_attrs base_attrs extra_attrs !! "data-delimiter"
  = Some (default "," (given !! "data-delimiter")) /\
  (forall k, k <> "data-delimiter" ->
     TomSelectTagWidget_build_attrs base_attrs extra_attrs !! k
     = TomSelectWidget_build_attrs base_attrs extra_attrs !! k) /\
  (forall url, get_url self = Ok url ->
     exists tag plain,
       HeavyTomSelectTagWidget_build_attrs self base_attrs extra_attrs
       = Built tag /\
       HeavyTomSelectWidget_build_attrs self base_attrs extra_attrs
       = Built plain /\
       tag !! "data-delimiter" = Some (default "," (given !! "data-delimiter")) /\
       forall k, k <> "data-delimiter" -> tag !! k = plain !! k).
Proof.
  intros given. split; [|split].
  - now rewrite TomSelectTagWidget_attrs_lookup.
  - intros k Hk. rewrite TomSelectTagWidget_attrs_lookup.
    destruct (String.eqb_spec k "data-delimiter"); [contradiction|reflexivity].
  - intros url Hurl.
    unfold HeavyTomSelectTagWidget_build_attrs, HeavyTomSelectWidget_build_attrs.
    pose proof (TomSelectTagWidget_attrs_lookup
                  (base_attrs ∪ heavy_default_attrs self url) extra_attrs)
      as Htag.
    pose proof (TomSelectWidget_attrs_lookup
                  (base_attrs ∪ heavy_default_attrs self url) extra_attrs "class")
      as Hclass.
    simpl in Hclass.
    pose proof (Htag "class") as Htag_class. simpl in Htag_class.
    rewrite Hclass in Htag_class.
    erewrite (HeavyTomSelectMixin_build_attrs_built TomSelectTagWidget_build_attrs);
      [|exact Hurl|exact Htag_class].
    erewrite (HeavyTomSelectMixin_build_attrs_built TomSelectWidget_build_attrs);
      [|exact Hurl|exact Hclass].
    eexists. eexists. split; [reflexivity|]. split; [reflexivity|]. split.
    + rewrite !lookup_insert_ne by discriminate. rewrite Htag. simpl.
      rewrite Widget_build_attrs_defaults, heavy_default_attrs_delimiter.
      fold given. now destruct (given !! "data-delimiter").
    + intros k Hk.
      destruct (decide (k = "class")) as [->|Hc].
      { now rewrite !lookup_insert_eq. }
      rewrite !(lookup_insert_ne _ "class") by congruence.
      destruct (decide (k = "data-field_id")) as [->|Hf].
      { now rewrite !lookup_insert_eq. }
      rewrite !(lookup_insert_ne _ "data-field_id") by congruence.
      rewrite Htag.
      destruct (String.eqb_spec k "data-delimiter"); [contradiction|reflexivity].
Qed.

(** X18.  [default_app_config] is decided by comparing the version of
    Django with ["3.2"] as strings, character by character: a version whose
    first character is below ['3'] gets it (so a version such as ["10.0"]
    counts as older than ["3.2"]), and a version whose first character is
    above ['3'] does not. *)
Theorem default_app_config_by_first_character (c : ascii) (rest : string) :
  ((N_of_ascii c < N_of_ascii "3")%N ->
   default_app_config (String c rest)
   = Some "django_tom_select.apps.TomSelectAppConfig") /\
  ((N_of_ascii "3" < N_of_ascii c)%N ->
   default_app_config (String c rest) = None).
Proof.
  unfold default_app_config, String.ltb. simpl String.compare.
  unfold Ascii.compare. split; intros H.
  - apply N.compare_lt_iff in H. now rewrite H.
  - apply N.compare_gt_iff in H. now rewrite H.
Qed.

End RenderingMore.

(** * The further properties at work on the test application *)

Module MoreChecks.

Import Testapp.

Lemma constructed_widget_get_url_witness :
  HeavyTomSelectMixin_init ArtistDataViewWidget [] [] no_kwargs world_after_init
  = (Ok artist_widget, world_after_two_inits) /\
  ((exists url, data_url artist_widget = Some url /\ url <> "" /\
                get_url artist_widget = Ok url)
   \/ (opt_truthy (data_url artist_widget) = false /\
       exists name, data_view artist_widget = Some name /\ name <> "" /\
                    get_url artist_widget = reverse (Some name))).
Proof.
  split; [reflexivity|].
  exact (constructed_widget_get_url ArtistDataViewWidget [] [] no_kwargs
           world_after_init world_after_two_inits artist_widget eq_refl).
Defined.

Lemma model_init_data_view_witness :
  decl_data_view (decl_heavy OwnViewWidget) = Some "heavy_data_1" /\
  exists self,
    fst (ModelTomSelectMixin_init OwnViewWidget [] [] model_kwargs_none
           fresh_world) = Ok self /\
    data_view (heavy self) = Some "django_tom_select:auto-json" /\
    data_url (heavy self) = None /\
    search_fields self = title_fields /\
    max_results self = 25%Z.
Proof.
  split; [reflexivity|].
  apply (model_init_data_view OwnViewWidget [] [] model_kwargs_none fresh_world).
  left. reflexivity.
Defined.

Lemma uuid_artist_not_title : uuid artist_widget <> uuid (heavy title_widget).
Proof. intros H. vm_compute in H. discriminate H. Defined.

Lemma render_keeps_other_entries_witness :
  uuid artist_widget <> uuid (heavy title_widget) /\
  (forall output w',
     Heavy_render artist_widget artist_args world_rendered = Ok (output, w') ->
     cache_get (_get_cache_key (heavy title_widget)) w'
     = cache_get (_get_cache_key (heavy title_widget)) world_rendered) /\
  (forall output w',
     Model_render title_widget artist_args world_rendered = Ok (output, w') ->
     cache_get (_get_cache_key artist_widget) w'
     = cache_get (_get_cache_key artist_widget) world_rendered).
Proof.
  split; [exact uuid_artist_not_title|].
  exact (render_keeps_other_entries artist_widget title_widget artist_args
           world_rendered uuid_artist_not_title).
Defined.

Lemma uuid4_0_not_1 : uuid4 (drawn fresh_world) <> uuid4 (S (drawn fresh_world)).
Proof. intros H. vm_compute in H. discriminate H. Defined.

Lemma two_widgets_are_both_registered_witness :
  uuid4 (drawn fresh_world) <> uuid4 (S (drawn fresh_world)) /\
  HeavyTomSelectMixin_init PrimaryGenreDataUrlWidget [] [] no_kwargs fresh_world
  = (Ok primary_genre_widget, world_after_init) /\
  HeavyTomSelectMixin_init ArtistDataViewWidget [] [] no_kwargs world_after_init
  = (Ok artist_widget, world_after_two_inits) /\
  _get_cache_key primary_genre_widget <> _get_cache_key artist_widget /\
  exists url1 url2,
    cache_get (_get_cache_key primary_genre_widget)
      (cache_set artist_key (HeavyEntry artist_widget "/heavy_data_1")
         (cache_set genre_key genre_entry world_after_two_inits))
    = Some (HeavyEntry primary_genre_widget url1) /\
    cache_get (_get_cache_key artist_widget)
      (cache_set artist_key (HeavyEntry artist_widget "/heavy_data_1")
         (cache_set genre_key genre_entry world_after_two_inits))
    = Some (HeavyEntry artist_widget url2).
Proof.
  split; [exact uuid4_0_not_1|]. split; [reflexivity|]. split; [reflexivity|].
  exact (two_widgets_are_both_registered
           PrimaryGenreDataUrlWidget ArtistDataViewWidget [] [] [] []
           no_kwargs no_kwargs primary_genre_widget artist_widget
           genre_args artist_args
           "<select name=primary_genre>" "<select name=artist>"
           fresh_world world_after_init world_after_two_inits
           (cache_set genre_key genre_entry world_after_two_inits)
           (cache_set artist_key (HeavyEntry artist_widget "/heavy_data_1")
              (cache_set genre_key genre_entry world_after_two_inits))
           uuid4_0_not_1 eq_refl eq_refl eq_refl eq_refl).
Defined.

Lemma model_render_without_queryset_witness :
  queryset bare_widget = None /\
  model bare_widget = None /\
  choices_queryset (choices (heavy bare_widget)) = None /\
  super_render (heavy bare_widget) genre_args
  = Ok "<select name=primary_genre>" /\
  Model_render bare_widget genre_args fresh_world
  = Raise (NotImplementedError (MsgMissingQuerySet "ModelTomSelectWidget")).
Proof.
  split; [reflexivity|]. split; [reflexivity|]. split; [reflexivity|].
  split; [reflexivity|].
  exact (model_render_without_queryset bare_widget genre_args
           "<select name=primary_genre>" fresh_world
           eq_refl eq_refl eq_refl eq_refl).
Defined.

Lemma model_render_without_search_fields_witness :
  search_fields foreign_key_widget = [] /\
  super_render (heavy foreign_key_widget) genre_args
  = Ok "<select name=primary_genre>" /\
  get_queryset foreign_key_widget = Ok (manager_all Albums) /\
  get_url (heavy foreign_key_widget) = Ok "/tomselect/fields/auto.json" /\
  exists d w',
    Model_render foreign_key_widget genre_args fresh_world
    = Ok ("<select name=primary_genre>", w') /\
    cache_get (_get_cache_key (heavy foreign_key_widget)) w'
    = Some (ModelEntry d) /\
    d_search_fields d = [] /\
    forall request term0 deps,
      filter_queryset foreign_key_widget request term0 None deps
      = Raise (NotImplementedError
                 (MsgMissingSearchFields "ModelTomSelectWidget")).
Proof.
  split; [reflexivity|]. split; [reflexivity|]. split; [reflexivity|].
  split; [reflexivity|].
  exact (model_render_without_search_fields foreign_key_widget genre_args
           "<select name=primary_genre>" "/tomselect/fields/auto.json"
           (manager_all Albums) fresh_world eq_refl eq_refl eq_refl eq_refl).
Defined.

Lemma model_descriptor_round_trip_witness :
  exists w',
    Model_set_to_cache title_widget fresh_world = Ok w' /\
    exists d,
      cache_get (_get_cache_key (heavy title_widget)) w' = Some (ModelEntry d) /\
      d_search_fields d = title_fields /\
      d_max_results d = 25%Z /\
      get_url (heavy title_widget) = Ok (d_url d) /\
      d_dependent_fields d = [] /\
      forall other request term0 deps,
        search_fields other = d_search_fields d ->
        cls (heavy other) = d_cls d ->
        filter_queryset other request term0
          (Some (qs_with_query (fst (d_queryset d)) (snd (d_queryset d)))) deps
        = filter_queryset title_widget request term0 None deps.
Proof.
  eexists. split; [reflexivity|].
  apply (model_descriptor_round_trip title_widget fresh_world).
  reflexivity.
Defined.

Lemma filter_queryset_search_fields_order_witness :
  search_fields title_widget <> [] /\
  Permutation (search_fields title_widget) (search_fields swapped_widget) /\
  exists result_a result_b,
    filter_queryset title_widget request0 "the great" (Some (manager_all Albums)) []
    = Ok result_a /\
    filter_queryset swapped_widget request0 "the great"
      (Some (manager_all Albums)) [] = Ok result_b /\
    forall db, qs_rows db result_a = qs_rows db result_b.
Proof.
  split; [discriminate|]. split; [apply perm_swap|].
  apply (filter_queryset_search_fields_order title_widget swapped_widget
           request0 "the great" (manager_all Albums) []);
    [discriminate | apply perm_swap].
Defined.

Lemma filter_queryset_more_dependent_fields_witness :
  search_fields title_widget <> [] /\
  exists narrow wide,
    filter_queryset title_widget request0 "great" (Some (manager_all Albums))
      [("country", "uk"); ("pk__startswith", "3")] = Ok narrow /\
    filter_queryset title_widget request0 "great" (Some (manager_all Albums))
      [("country", "uk")] = Ok wide /\
    forall db r, In r (qs_rows db narrow) -> In r (qs_rows db wide).
Proof.
  split; [discriminate|].
  apply (filter_queryset_more_dependent_fields title_widget request0 "great"
           (manager_all Albums) [("country", "uk")] [("pk__startswith", "3")]).
  discriminate.
Defined.

Lemma filter_queryset_idempotent_witness :
  search_fields title_widget <> [] /\
  exists once twice,
    filter_queryset title_widget request0 "great" (Some (manager_all Albums))
      [("country", "uk")] = Ok once /\
    filter_queryset title_widget request0 "great" (Some once)
      [("country", "uk")] = Ok twice /\
    forall db, qs_rows db twice = qs_rows db once.
Proof.
  split; [discriminate|].
  apply (filter_queryset_idempotent title_widget request0 "great"
           (manager_all Albums) [("country", "uk")]).
  discriminate.
Defined.

Lemma filter_queryset_single_word_witness :
  search_fields title_widget <> [] /\
  "great" <> "" /\
  no_whitespace "great" = true /\
  exists result,
    filter_queryset title_widget request0 "great" (Some (manager_all Albums)) []
    = Ok result /\
    forall db r,
      In r (qs_rows db result) <->
      In r (query_rows db Albums (qs_query (manager_all Albums))) /\
      any_field_matches r title_fields "great" = true.
Proof.
  split; [discriminate|]. split; [discriminate|]. split; [reflexivity|].
  apply (filter_queryset_single_word title_widget request0 "great"
           (manager_all Albums));
    [discriminate | discriminate | reflexivity].
Defined.

Lemma filter_queryset_only_narrows_witness :
  search_fields orphan_widget <> [] /\
  get_queryset orphan_widget
  = Raise (NotImplementedError (MsgMissingQuerySet "ModelTomSelectWidget")) /\
  exists result select,
    filter_queryset orphan_widget request0 "great" (Some fetched_albums)
      [("country", "uk")] = Ok result /\
    qs_model result = Albums /\
    q_where (qs_query result)
    = (q_where (qs_query fetched_albums) ++ [select])%list /\
    q_empty (qs_query result) = q_empty (qs_query fetched_albums) /\
    (q_distinct (qs_query fetched_albums) = true ->
     q_distinct (qs_query result) = true) /\
    qs_result_cache result = None /\
    forall db r,
      In r (qs_rows db result) ->
      In r (query_rows db Albums (qs_query fetched_albums)).
Proof.
  split; [discriminate|]. split; [reflexivity|].
  apply (filter_queryset_only_narrows orphan_widget request0 "great"
           fetched_albums [("country", "uk")]).
  discriminate.
Defined.

Lemma tom_select_build_attrs_witness :
  TomSelectWidget_build_attrs {["class" := "wide"]} None !! "class"
  = Some "wide django-tom-select" /\
  TomSelectWidget_build_attrs {["class" := "wide"]} None !! "data-create"
  = Some "false" /\
  TomSelectWidget_build_attrs {["class" := "wide"]} None !! "id"
  = Widget_build_attrs {["class" := "wide"]} None !! "id".
Proof.
  destruct (tom_select_build_attrs {["class" := "wide"]} None)
    as (Hclass & Hcreate & Hother & _).
  split; [exact Hclass|]. split; [exact Hcreate|].
  apply Hother; discriminate.
Defined.

Lemma heavy_build_attrs_witness :
  get_url city_widget = Ok "/tomselect/fields/auto.json" /\
  exists attrs0,
    HeavyTomSelectWidget_build_attrs city_widget ∅ None = Built attrs0 /\
    attrs0 !! "data-field_id" = Some (field_id city_widget) /\
    attrs0 !! "class" = Some "django-tom-select django-tom-select-heavy" /\
    attrs0 !! "data-ajax--url" = Some "/tomselect/fields/auto.json" /\
    attrs0 !! "data-tom-select-dependent-fields" = Some "country".
Proof.
  split; [reflexivity|].
  exact (proj2 (heavy_build_attrs city_widget ∅ None)
           "/tomselect/fields/auto.json" eq_refl).
Defined.

Lemma tag_build_attrs_witness :
  get_url city_widget = Ok "/tomselect/fields/auto.json" /\
  TomSelectTagWidget_build_attrs ∅ None !! "data-delimiter" = Some "," /\
  exists tag plain,
    HeavyTomSelectTagWidget_build_attrs city_widget ∅ None = Built tag /\
    HeavyTomSelectWidget_build_attrs city_widget ∅ None = Built plain /\
    tag !! "data-delimiter" = Some "," /\
    forall k, k <> "data-delimiter" -> tag !! k = plain !! k.
Proof.
  split; [reflexivity|].
  destruct (tag_build_attrs city_widget ∅ None) as (Hlight & _ & Hheavy).
  split; [exact Hlight|].
  exact (Hheavy "/tomselect/fields/auto.json" eq_refl).
Defined.

Lemma default_app_config_by_first_character_witness :
  (N_of_ascii "1" < N_of_ascii "3")%N /\
  (N_of_ascii "3" < N_of_ascii "4")%N /\
  default_app_config "10.0" = Some "django_tom_select.apps.TomSelectAppConfig" /\
  default_app_config "4.2" = None.
Proof.
  split; [reflexivity|]. split; [reflexivity|]. split.
  - exact (proj1 (default_app_config_by_first_character "1" "0.0") eq_refl).
  - exact (proj2 (default_app_config_by_first_character "4" ".2") eq_refl).
Defined.

End MoreChecks.
